(** * gen_axes_icon: the 3D axis icon generator

    A shallow embedding of [temp/gen_axes_icon.py].  The script drives a
    plotting library; here every library call is recorded on the canvas of
    the current figure, [savefig] stores the canvas in a file system, and
    exceptions are explicit.  Coordinates are IEEE binary64 numbers, as
    Python's [float]; strings are their UTF-8 bytes. *)

From Stdlib Require Import ZArith Floats.
From stdpp Require Import gmap strings list.

Set Warnings "-register-all,-inexact-float".

Open Scope Z_scope.

(** ** Python values and exceptions *)

(** The values a caller passes as geometry: [None], an [int], a [float] or
    a tuple of such. *)
Inductive pyval :=
| PyNone
| PyInt (z : Z)
| PyFloat (f : float)
| PyTuple (vs : list pyval).

Inductive exn :=
| TypeError
| ValueError
| IndexError
| OverflowError
| ZeroDivisionError
| OSError
| LibraryError.

(** A point of R^3 as a tuple of three floats. *)
Definition pt : Type := float * float * float.

Inductive axis := AxX | AxY | AxZ.

(** ** Library calls

    One constructor per call of the plotting library that the script makes,
    with the arguments that vary; arguments that are literals at the only
    call site are part of the constructor's meaning. *)
Inductive call :=
(* plt.figure(figsize=(size[0]/dpi, size[1]/dpi), dpi=dpi) *)
| Figure (size : Z * Z) (dpi : Z)
(* fig.add_subplot(111, projection='3d') *)
| AddSubplot3d
(* ax.view_init(elev, azim) *)
| ViewInit (elev azim : Z)
| SetProjType (kind : string)
| SetBoxAspect (a b c : Z)
(* Arrow3D(xs, ys, zs, color, alpha, arrowstyle='->', lw=3,
   mutation_scale=20) followed by ax.add_artist *)
| AddArrow (xs ys zs : float * float) (color : string) (alpha : float)
(* ax.text(x, y, z, label, color, fontsize=16, fontweight='bold',
   ha='center', alpha) *)
| Text (x y z : float) (label color : string) (alpha : float)
(* ax.scatter([0], [0], [0], color='black', s=50, alpha=0.8) *)
| ScatterOrigin
(* ax.plot([x0, x1], [y0, y1], [z0, z1], color, alpha, lw, linestyle) *)
| Plot (xs ys zs : pyval * pyval) (color : string) (alpha lw : float)
       (linestyle : string)
| SetLim (a : axis) (lo hi : float)
| SetTicksEmpty (a : axis)
| GridOff
| SetAxisOff
| PaneFillOff (a : axis)
| PaneEdgeNone (a : axis)
| WAxisLineHide (a : axis)
| FigPatchAlpha0
| AxPatchAlpha0
| PltAxisOff
(* Poly3DCollection([verts], facecolors, edgecolors='none', linewidths=0,
   alpha) followed by ax.add_collection3d *)
| AddPoly (verts : list pt) (facecolors : string) (alpha : float)
| TightLayout
(* plt.subplots_adjust(left=0, right=1, top=1, bottom=0) *)
| SubplotsAdjustFull
(* plt.savefig / fig.savefig *)
| Savefig (path format : string)
(* plt.subplots(nrows, ncols, figsize=(12, 12), dpi=150) *)
| Subplots (nrows ncols : nat)
| FigFacecolor (color : string)
(* calls on the cell in row r, column c of the grid *)
| CellFacecolor (rc : nat * nat) (color : string)
| CellAxisOff (rc : nat * nat)
| Imread (path : string)
| Imshow (rc : nat * nat) (img : list call)
(* plt.subplots_adjust(left=0.02, right=0.98, top=0.98, bottom=0.02,
   wspace=0.08, hspace=0.08) *)
| SubplotsAdjustGrid
(* print(line), on the standard output *)
| PrintLine (line : string)
(* plt.close() and plt.close(fig) *)
| PltClose.

(** A written file: its format and the canvas that was saved. *)
Record file := File { f_format : string; f_canvas : list call }.

(** ** Program state *)
Record state := State {
  canvas : list call;          (* calls made on the current figure *)
  files : gmap string file;    (* the file system *)
  written : list string;       (* every path written, in order *)
  stdout : list string         (* printed lines *)
}.

Definition emit (c : call) (s : state) : state :=
  State (canvas s ++ [c]) (files s) (written s) (stdout s).

Definition emits (cs : list call) (s : state) : state :=
  State (canvas s ++ cs) (files s) (written s) (stdout s).

(** ** The monad: state and exceptions *)
Inductive outcome (A : Type) :=
| Returned (a : A) (s : state)
| Raised (e : exn) (s : state).
Arguments Returned {A} a s.
Arguments Raised {A} e s.

Definition M (A : Type) : Type := state -> outcome A.

#[global] Instance M_ret : MRet M := fun A a s => Returned a s.
#[global] Instance M_bind : MBind M := fun A B k m s =>
  match m s with
  | Returned a s' => k a s'
  | Raised e s' => Raised e s'
  end.

(** Computations that raise but touch no state: built-ins on values. *)
Definition res (A : Type) : Type := exn + A.

#[global] Instance res_ret : MRet res := fun A a => inr a.
#[global] Instance res_bind : MBind res := fun A B k r =>
  match r with
  | inr a => k a
  | inl e => inl e
  end.

(** A value computation as a step of the script. *)
Definition lift {A} (r : res A) : M A := fun s =>
  match r with
  | inr a => Returned a s
  | inl e => Raised e s
  end.

(** try: body / except Exception: handler *)
Definition try_except {A} (body : M A) (handler : M A) : M A := fun s =>
  match body s with
  | Returned a s' => Returned a s'
  | Raised _ s' => handler s'
  end.

(** try: body / except Exception: pass *)
Definition try_pass (body : M unit) : M unit := try_except body (mret tt).

(** for x in xs: body x *)
Fixpoint for_each {A} (xs : list A) (body : A -> M unit) : M unit :=
  match xs with
  | [] => mret tt
  | x :: xs' => body x;; for_each xs' body
  end.

(** ** Python built-ins used by the script *)

(** [float(v)]: a float is returned as it is, an int is rounded to the
    nearest binary64 number (ties to even) and overflows beyond the largest
    one; [None] and tuples are a [TypeError]. *)
Definition float_of_int (z : Z) : res float :=
  match binary_normalize prec emax z 0 false with
  | S754_infinity _ => inl OverflowError
  | sf => inr (SF2Prim sf)
  end.

Definition py_float (v : pyval) : res float :=
  match v with
  | PyFloat f => inr f
  | PyInt z => float_of_int z
  | PyNone | PyTuple _ => inl TypeError
  end.

(** [a, b, c = v] *)
Definition unpack3 (v : pyval) : res (pyval * pyval * pyval) :=
  match v with
  | PyTuple [a; b; c] => inr (a, b, c)
  | PyTuple _ => inl ValueError
  | _ => inl TypeError
  end.

(** [v[i]] for a literal index [i >= 0] *)
Definition py_index (v : pyval) (i : nat) : res pyval :=
  match v with
  | PyTuple vs =>
      match vs !! i with
      | Some x => inr x
      | None => inl IndexError
      end
  | _ => inl TypeError
  end.

(** [str.lower], on ASCII letters *)
Definition lower_ascii (c : Ascii.ascii) : Ascii.ascii :=
  let n := Ascii.nat_of_ascii c in
  if ((65 <=? n) && (n <=? 90))%nat then Ascii.ascii_of_nat (n + 32) else c.

Fixpoint lower (s : string) : string :=
  match s with
  | EmptyString => EmptyString
  | String c s' => String (lower_ascii c) (lower s')
  end.

(** [s.startswith(p)] *)
Fixpoint startswith (p s : string) : bool :=
  match p, s with
  | EmptyString, _ => true
  | String a p', String b s' => if Ascii.eqb a b then startswith p' s' else false
  | String _ _, EmptyString => false
  end.

(** [s.replace(old, new)] for a non-empty [old]: occurrences are replaced
    from the left and do not overlap; [skip] counts the characters of an
    occurrence still to be dropped. *)
Fixpoint replace_from (skip : nat) (old new s : string) : string :=
  match s with
  | EmptyString => EmptyString
  | String c s' =>
      match skip with
      | S k => replace_from k old new s'
      | O =>
          if startswith old s
          then new +:+ replace_from (String.length old - 1) old new s'
          else String c (replace_from 0 old new s')
      end
  end.

Definition replace (old new s : string) : string := replace_from 0 old new s.

(** Float comparisons of the script. *)
Definition pt_eqb (p q : pt) : bool :=
  let '(p0, p1, p2) := p in
  let '(q0, q1, q2) := q in
  (PrimFloat.eqb p0 q0 && PrimFloat.eqb p1 q1 && PrimFloat.eqb p2 q2)%bool.

(** [max(a, b)] *)
Definition py_max (a b : float) : float :=
  if PrimFloat.ltb a b then b else a.

(** ** Parameters of the renderer *)

(** The [parallelogram] dict: every key is optional and read with
    [.get(key, default)]. *)
Record parallelogram_dict := ParallelogramDict {
  pg_v1 : option pyval;
  pg_v2 : option pyval;
  pg_fill_color : option string;
  pg_fill_alpha : option float;
  pg_edge_color : option string;
  pg_edge_style : option string;
  pg_edge_lw : option float;
  pg_edge_alpha : option float;
  pg_skip_axis_edges : option bool
}.

Definition pyval3 : Type := pyval * pyval * pyval.

(** The keyword parameters of [create_3d_axis_icon].  [normal_axis] is
    [None] or a string; [extra_guides] is [None] or a list of point pairs. *)
Record params := Params {
  size : Z * Z;
  dpi : Z;
  normal_axis : option string;
  dim_alpha : float;
  guide_to : pyval;
  guide_color : string;
  guide_lw_main : float;
  guide_lw_aux : float;
  guide_style_main : string;
  guide_style_aux : string;
  guide_alpha_main : float;
  guide_alpha_aux : float;
  parallelogram : option parallelogram_dict;
  extra_guides : option (list (pyval3 * pyval3))
}.

Definition defaults : params :=
  Params (400, 400) 150 None 0.35%float PyNone "#222222"
         3.0%float 2.2%float "-" "--" 1.0%float 0.6%float None None.

Definition default_output_path : string := "3d_axis_icon.png".
Definition default_format : string := "png".

(** One keyword argument of a call. *)
Inductive kwarg :=
| size_ (v : Z * Z)
| dpi_ (v : Z)
| normal_axis_ (v : string)
| dim_alpha_ (v : float)
| guide_to_ (v : pyval)
| guide_color_ (v : string)
| guide_lw_main_ (v : float)
| guide_lw_aux_ (v : float)
| guide_style_main_ (v : string)
| guide_style_aux_ (v : string)
| guide_alpha_main_ (v : float)
| guide_alpha_aux_ (v : float)
| parallelogram_ (v : parallelogram_dict)
| extra_guides_ (v : list (pyval3 * pyval3)).

Definition bind_kwarg (p : params) (k : kwarg) : params :=
  let '(Params sz dp na da gt gc lm la sm sa am aa pg eg) := p in
  match k with
  | size_ v => Params v dp na da gt gc lm la sm sa am aa pg eg
  | dpi_ v => Params sz v na da gt gc lm la sm sa am aa pg eg
  | normal_axis_ v => Params sz dp (Some v) da gt gc lm la sm sa am aa pg eg
  | dim_alpha_ v => Params sz dp na v gt gc lm la sm sa am aa pg eg
  | guide_to_ v => Params sz dp na da v gc lm la sm sa am aa pg eg
  | guide_color_ v => Params sz dp na da gt v lm la sm sa am aa pg eg
  | guide_lw_main_ v => Params sz dp na da gt gc v la sm sa am aa pg eg
  | guide_lw_aux_ v => Params sz dp na da gt gc lm v sm sa am aa pg eg
  | guide_style_main_ v => Params sz dp na da gt gc lm la v sa am aa pg eg
  | guide_style_aux_ v => Params sz dp na da gt gc lm la sm v am aa pg eg
  | guide_alpha_main_ v => Params sz dp na da gt gc lm la sm sa v aa pg eg
  | guide_alpha_aux_ v => Params sz dp na da gt gc lm la sm sa am v pg eg
  | parallelogram_ v => Params sz dp na da gt gc lm la sm sa am aa (Some v) eg
  | extra_guides_ v => Params sz dp na da gt gc lm la sm sa am aa pg (Some v)
  end.

(** The parameters a call with keyword arguments [kwargs] runs with. *)
Definition bind_kwargs (kwargs : list kwarg) : params :=
  foldl bind_kwarg defaults kwargs.

(** ** Pure parts of [create_3d_axis_icon] *)

Definition axis_length : float := 1.15%float.
Definition label_offset : float := 1.08%float.
Definition color_x : string := "#FF0000".
Definition color_y : string := "#00FF00".
Definition color_z : string := "#0000FF".

(** Lines 71-79: the opacity of the X, Y and Z axis. *)
Definition axis_alphas (normal_axis : option string) (dim_alpha : float)
  : float * float * float :=
  match normal_axis with
  | None => (1.0, 1.0, 1.0)%float
  | Some sel =>
      if existsb (String.eqb (lower sel)) ["all_dim"; "dim_all"; "none"]
      then (dim_alpha, dim_alpha, dim_alpha)
      else
        let na := lower sel in
        (if String.eqb na "x" then 1.0%float else dim_alpha,
         if String.eqb na "y" then 1.0%float else dim_alpha,
         if String.eqb na "z" then 1.0%float else dim_alpha)
  end.

(** [enumerate(target)] *)
Definition enumerate3 (t : pt) : list (nat * float) :=
  let '(a, b, c) := t in [(0%nat, a); (1%nat, b); (2%nat, c)].

(** [abs(v - c) < 1e-9] *)
Definition near (c v : float) : bool :=
  PrimFloat.ltb (PrimFloat.abs (v - c)) 1e-9%float.

(** [[i for i, v in enumerate(target) if abs(v - c) < 1e-9]] *)
Definition axes_near (c : float) (t : pt) : list nat :=
  map fst (List.filter (fun iv => near c (snd iv)) (enumerate3 t)).

(** Lines 128-133: the unit point of axis [ax_idx]. *)
Definition unit_point (ax_idx : nat) : pt :=
  match ax_idx with
  | 0%nat => (1.0, 0.0, 0.0)%float
  | 1%nat => (0.0, 1.0, 0.0)%float
  | _ => (0.0, 0.0, 1.0)%float
  end.

Definition O : pt := (0.0, 0.0, 0.0)%float.

(** [tuple(pt) in {(1.0, 0.0, 0.0), (0.0, 1.0, 0.0), (0.0, 0.0, 1.0)}] *)
Definition is_unit_axis (p : pt) : bool :=
  existsb (pt_eqb p)
    [(1.0, 0.0, 0.0)%float; (0.0, 1.0, 0.0)%float; (0.0, 0.0, 1.0)%float].

(** Lines 215-221: whether the edge from [p] to [q] is skipped. *)
Definition skip_edge (skip_axis_edges : bool) (p q : pt) : bool :=
  let skip := false in
  if skip_axis_edges then
    let skip := if pt_eqb p O && is_unit_axis q then true else skip in
    let skip := if pt_eqb q O && is_unit_axis p then true else skip in
    skip
  else skip.

(** [ax.plot] of the segment between two points of floats. *)
Definition plot_pts (p q : pt) (color : string) (alpha lw : float)
    (linestyle : string) : call :=
  let '(p0, p1, p2) := p in
  let '(q0, q1, q2) := q in
  Plot (PyFloat p0, PyFloat q0) (PyFloat p1, PyFloat q1)
       (PyFloat p2, PyFloat q2) color alpha lw linestyle.

(** The auxiliary dashed segment from a point of floats to the guide
    target, whose coordinates are passed on as the caller gave them. *)
Definition plot_aux (p : params) (start : pt) (g : pyval3) : call :=
  let '(sx, sy, sz) := start in
  let '(gx, gy, gz) := g in
  Plot (PyFloat sx, gx) (PyFloat sy, gy) (PyFloat sz, gz)
       (guide_color p) (guide_alpha_aux p) (guide_lw_aux p)
       (guide_style_aux p).

(** ** The script *)

Section Script.

(** Whether a call of the plotting library, or a [print], raises: this
    depends on the library version and on the environment, not on the
    script. *)
Variable raises : call -> bool.

(** A library call on the current figure. *)
Definition lib (c : call) : M unit := fun s =>
  if raises c then Raised LibraryError s else Returned tt (emit c s).

(** [plt.figure(figsize=(size[0]/dpi, size[1]/dpi), dpi=dpi)]: the
    divisions come first; the new figure becomes the current one. *)
Definition plt_figure (size : Z * Z) (dpi : Z) : M unit := fun s =>
  if dpi =? 0 then Raised ZeroDivisionError s
  else if raises (Figure size dpi) then Raised LibraryError s
  else Returned tt (State [Figure size dpi] (files s) (written s) (stdout s)).

(** [plt.subplots(nrows=4, ncols=4, ...)]: a new current figure and its
    array of axes, one row after the other. *)
Definition plt_subplots (nrows ncols : nat) : M (list (list (nat * nat))) :=
  fun s =>
  if raises (Subplots nrows ncols) then Raised LibraryError s
  else Returned (map (fun r => map (fun c => (r, c)) (seq 0 ncols)) (seq 0 nrows))
         (State [Subplots nrows ncols] (files s) (written s) (stdout s)).

(** [savefig(path, format=...)]: the canvas of the current figure is
    written to [path], over a file that is there. *)
Definition savefig (path format : string) : M unit := fun s =>
  if raises (Savefig path format) then Raised OSError s
  else Returned tt (State (canvas s) (<[path := File format (canvas s)]> (files s))
                          (written s ++ [path]) (stdout s)).

(** [plt.close()] *)
Definition plt_close : M unit := fun s =>
  if raises PltClose then Raised LibraryError s
  else Returned tt (State [] (files s) (written s) (stdout s)).

(** [print(line)]: it raises when the standard output does not take the
    line, as when it cannot encode the characters of the message. *)
Definition print (line : string) : M unit := fun s =>
  if raises (PrintLine line) then Raised OSError s
  else Returned tt (State (canvas s) (files s) (written s) (stdout s ++ [line])).

(** [mpimg.imread(path)]: the image stored at [path]. *)
Definition imread (path : string) : M (list call) := fun s =>
  match files s !! path with
  | None => Raised OSError s
  | Some f =>
      if raises (Imread path) then Raised LibraryError s
      else Returned (f_canvas f) s
  end.

(** *** [create_3d_axis_icon] *)

(** Lines 40-51: the 3D axes and the view. *)
Definition setup_axes : M unit :=
  lib AddSubplot3d;;
  lib (ViewInit 24 (-35));;
  try_pass (lib (SetProjType "persp"));;
  try_pass (lib (SetBoxAspect 1 1 1)).

(** Lines 71-106: the three arrows, their labels and the origin marker. *)
Definition draw_axes (p : params) : M unit :=
  let '(alpha_x, alpha_y, alpha_z) := axis_alphas (normal_axis p) (dim_alpha p) in
  lib (AddArrow (0, axis_length) (0, 0) (0, 0) color_x alpha_x)%float;;
  lib (AddArrow (0, 0) (0, axis_length) (0, 0) color_y alpha_y)%float;;
  lib (AddArrow (0, 0) (0, 0) (0, axis_length) color_z alpha_z)%float;;
  lib (Text (axis_length * label_offset) 0 0 "X" color_x alpha_x)%float;;
  lib (Text 0 (axis_length * label_offset) 0 "Y" color_y alpha_y)%float;;
  lib (Text 0 0 (axis_length * label_offset) "Z" color_z alpha_z)%float;;
  lib ScatterOrigin.

(** Lines 110-113: the guide target, the origin when it does not unpack. *)
Definition guide_target (guide_to : pyval) : M pyval3 :=
  try_except (lift (unpack3 guide_to))
             (mret (PyFloat 0.0, PyFloat 0.0, PyFloat 0.0)%float).

(** Lines 116-118: the main guide line. *)
Definition draw_main_guide (p : params) (g : pyval3) : M unit :=
  let '(gx, gy, gz) := g in
  lib (Plot (PyInt 0, gx) (PyInt 0, gy) (PyInt 0, gz)
            (guide_color p) (guide_alpha_main p) (guide_lw_main p)
            (guide_style_main p)).

(** Lines 122-136: the auxiliary dashed lines derived from the target. *)
Definition draw_aux_guides (p : params) (g : pyval3) : M unit :=
  let '(gx, gy, gz) := g in
  target ← lift (fx ← py_float gx; fy ← py_float gy; fz ← py_float gz;
                 mret (fx, fy, fz));
  let ones_axes := axes_near 1.0%float target in
  let zeros_axes := axes_near 0.0%float target in
  if ((length ones_axes =? 2) && (length zeros_axes =? 1))%nat
  then for_each ones_axes (fun ax_idx =>
         lib (plot_aux p (unit_point ax_idx) (gx, gy, gz)))
  else mret tt.

(** Lines 139-143: the caller's extra guide lines. *)
Definition draw_extra_guides (p : params) : M unit :=
  match extra_guides p with
  | Some (e :: es) =>
      for_each (e :: es) (fun '((sx, sy, sz), (ex, ey, ez)) =>
        lib (Plot (sx, ex) (sy, ey) (sz, ez)
                  (guide_color p) (guide_alpha_aux p) (guide_lw_aux p)
                  (guide_style_aux p)))
  | _ => mret tt
  end.

(** Lines 109-143. *)
Definition draw_guides (p : params) : M unit :=
  match guide_to p with
  | PyNone => mret tt
  | guide_to =>
      g ← guide_target guide_to;
      draw_main_guide p g;;
      draw_aux_guides p g;;
      draw_extra_guides p
  end.

(** Lines 146-181: limits, and everything that hides the axes' box. *)
Definition style_axes : M unit :=
  let limit := py_max 1.35 (axis_length * 1.15)%float in
  lib (SetLim AxX (-0.1)%float limit);;
  lib (SetLim AxY (-0.1)%float limit);;
  lib (SetLim AxZ (-0.1)%float limit);;
  lib (SetTicksEmpty AxX);;
  lib (SetTicksEmpty AxY);;
  lib (SetTicksEmpty AxZ);;
  lib GridOff;;
  try_pass (lib SetAxisOff);;
  for_each [AxX; AxY; AxZ] (fun axis =>
    try_pass (lib (PaneFillOff axis);; lib (PaneEdgeNone axis)));;
  try_pass (lib (WAxisLineHide AxX);; lib (WAxisLineHide AxY);;
            lib (WAxisLineHide AxZ));;
  lib FigPatchAlpha0;;
  lib AxPatchAlpha0;;
  try_pass (lib PltAxisOff).

(** [(float(v[0]), float(v[1]), float(v[2]))] *)
Definition float3 (v : pyval) : res pt :=
  v0 ← py_index v 0; f0 ← py_float v0;
  v1 ← py_index v 1; f1 ← py_float v1;
  v2 ← py_index v 2; f2 ← py_float v2;
  mret (f0, f1, f2).

(** Lines 184-224: the parallelogram spanned by [v1] and [v2]. *)
Definition draw_parallelogram (p : params) : M unit :=
  match parallelogram p with
  | None => mret tt
  | Some d =>
      let zero3 := PyTuple [PyInt 0; PyInt 0; PyInt 0] in
      let v1 := default zero3 (pg_v1 d) in
      let v2 := default zero3 (pg_v2 d) in
      let fill_color := default "#fff6b3" (pg_fill_color d) in
      let fill_alpha := default 0.35%float (pg_fill_alpha d) in
      let edge_color := default "#b8860b" (pg_edge_color d) in
      let edge_style := default "--" (pg_edge_style d) in
      let edge_lw := default 2.2%float (pg_edge_lw d) in
      let edge_alpha := default 0.6%float (pg_edge_alpha d) in
      let skip_axis_edges := default true (pg_skip_axis_edges d) in
      A ← lift (float3 v1);
      D ← lift (float3 v2);
      let B := (A.1.1 + D.1.1, A.1.2 + D.1.2, A.2 + D.2)%float in
      lib (AddPoly [O; A; B; D] fill_color fill_alpha);;
      let edges := [(O, A); (A, B); (B, D); (D, O)] in
      for_each edges (fun '(p, q) =>
        if negb (skip_edge skip_axis_edges p q)
        then lib (plot_pts p q edge_color edge_alpha edge_lw edge_style)
        else mret tt)
  end.

(** Lines 227-228: the layout. *)
Definition adjust_layout : M unit :=
  lib TightLayout;;
  lib SubplotsAdjustFull.

(** Lines 231-240: the file and the message. *)
Definition save_figure (output_path format : string) : M unit :=
  output_path ←
    (if String.eqb (lower format) "svg"
     then let output_path := replace ".png" ".svg" output_path in
          savefig output_path "svg";; mret output_path
     else savefig output_path "png";; mret output_path);
  plt_close;;
  print ("3D坐标轴图标已保存到: " +:+ output_path).

Definition create_3d_axis_icon (output_path format : string)
    (kwargs : list kwarg) : M unit :=
  let p := bind_kwargs kwargs in
  plt_figure (size p) (dpi p);;
  setup_axes;;
  draw_axes p;;
  draw_guides p;;
  style_axes;;
  draw_parallelogram p;;
  adjust_layout;;
  save_figure output_path format.

(** *** The variants *)

Definition _save_both (base_name : string) (kwargs : list kwarg) : M unit :=
  create_3d_axis_icon (base_name +:+ ".png") "png" kwargs;;
  create_3d_axis_icon (base_name +:+ ".svg") "svg" kwargs.

Definition create_multiple_styles : M unit :=
  _save_both "axis_standard" [size_ (400, 400)];;
  _save_both "axis_hires" [size_ (800, 800); dpi_ 300];;
  print "已生成多种格式的坐标轴图标".

Definition create_focus_variants : M unit :=
  _save_both "axis_focus_x"
    [size_ (400, 400); normal_axis_ "x"; dim_alpha_ 0.35];;
  _save_both "axis_focus_y"
    [size_ (400, 400); normal_axis_ "y"; dim_alpha_ 0.35];;
  _save_both "axis_focus_z"
    [size_ (400, 400); normal_axis_ "z"; dim_alpha_ 0.35].

(** The tuple [(a, b, c)] of ints. *)
Definition ints (a b c : Z) : pyval := PyTuple [PyInt a; PyInt b; PyInt c].

Definition create_all_dim_with_guides : M unit :=
  _save_both "axis_dim_011"
    [size_ (400, 400); normal_axis_ "all_dim"; dim_alpha_ 0.35;
     guide_to_ (ints 0 1 1); guide_color_ "#b8860b"];;
  _save_both "axis_dim_101"
    [size_ (400, 400); normal_axis_ "all_dim"; dim_alpha_ 0.35;
     guide_to_ (ints 1 0 1); guide_color_ "#b8860b"];;
  _save_both "axis_dim_110"
    [size_ (400, 400); normal_axis_ "all_dim"; dim_alpha_ 0.35;
     guide_to_ (ints 1 1 0); guide_color_ "#b8860b"].

(** The dict that the two parallelogram generators pass, all keys but
    [v1] and [v2] being the same in the six calls; [edge_alpha] is left to
    its default. *)
Definition plane (v1 v2 : pyval) : parallelogram_dict :=
  ParallelogramDict (Some v1) (Some v2) (Some "#fff6b3") (Some 0.35%float)
    (Some "#b8860b") (Some "--") (Some 2.2%float) None (Some true).

Definition create_parallelogram_variants : M unit :=
  _save_both "axis_plane_001_010"
    [size_ (400, 400); normal_axis_ "all_dim"; dim_alpha_ 0.35;
     parallelogram_ (plane (ints 0 0 1) (ints 0 1 0))];;
  _save_both "axis_plane_010_100"
    [size_ (400, 400); normal_axis_ "all_dim"; dim_alpha_ 0.35;
     parallelogram_ (plane (ints 0 1 0) (ints 1 0 0))];;
  _save_both "axis_plane_100_001"
    [size_ (400, 400); normal_axis_ "all_dim"; dim_alpha_ 0.35;
     parallelogram_ (plane (ints 1 0 0) (ints 0 0 1))].

Definition create_parallelogram_variants_composite : M unit :=
  _save_both "axis_plane_011_100"
    [size_ (400, 400); normal_axis_ "all_dim"; dim_alpha_ 0.35;
     parallelogram_ (plane (ints 0 1 1) (ints 1 0 0))];;
  _save_both "axis_plane_101_010"
    [size_ (400, 400); normal_axis_ "all_dim"; dim_alpha_ 0.35;
     parallelogram_ (plane (ints 1 0 1) (ints 0 1 0))];;
  _save_both "axis_plane_110_001"
    [size_ (400, 400); normal_axis_ "all_dim"; dim_alpha_ 0.35;
     parallelogram_ (plane (ints 1 1 0) (ints 0 0 1))].

Definition create_space_diagonal_variant : M unit :=
  let extra :=
    [((PyInt 1, PyInt 0, PyInt 0), (PyInt 1, PyInt 1, PyInt 1));
     ((PyInt 0, PyInt 1, PyInt 0), (PyInt 1, PyInt 1, PyInt 1));
     ((PyInt 0, PyInt 0, PyInt 1), (PyInt 1, PyInt 1, PyInt 1))] in
  _save_both "axis_diag_111"
    [size_ (400, 400); normal_axis_ "all_dim"; dim_alpha_ 0.35;
     guide_to_ (ints 1 1 1); guide_color_ "#b8860b";
     guide_lw_main_ 3.0; guide_style_main_ "-";
     guide_lw_aux_ 2.2; guide_style_aux_ "--";
     extra_guides_ extra].

(** *** The reference grid *)

Definition names : list string :=
  ["axis_focus_x"; "axis_focus_y"; "axis_focus_z"; "axis_diag_111";
   "axis_dim_011"; "axis_dim_101"; "axis_dim_110";
   "axis_plane_001_010"; "axis_plane_010_100"; "axis_plane_100_001";
   "axis_plane_011_100"; "axis_plane_101_010"; "axis_plane_110_001"].

Definition bg : string := "#eeeeee".

(** [axes.ravel()]: the rows one after the other. *)
Definition ravel {A} (axes : list (list A)) : list A := concat axes.

(** [enumerate(xs)] *)
Definition enumerate {A} (xs : list A) : list (nat * A) :=
  zip (seq 0 (length xs)) xs.

(** Lines 391-399: one cell of the grid. *)
Definition fill_cell (i : nat) (ax : nat * nat) : M unit :=
  lib (CellFacecolor ax bg);;
  lib (CellAxisOff ax);;
  if (i <? length names)%nat
  then try_pass (img ← imread (default "" (names !! i) +:+ ".png");
                 lib (Imshow ax img))
  else mret tt.

Definition create_reference_grid : M unit :=
  axes ← plt_subplots 4 4;
  lib (FigFacecolor bg);;
  let axes := ravel axes in
  for_each (enumerate axes) (fun '(i, ax) => fill_cell i ax);;
  lib SubplotsAdjustGrid;;
  savefig "axis_reference_grid.png" "png";;
  savefig "axis_reference_grid.svg" "svg";;
  plt_close;;
  print "参考拼图已保存到: axis_reference_grid.png, axis_reference_grid.svg".

(** *** The program *)

Definition main : M unit :=
  create_3d_axis_icon default_output_path default_format [];;
  create_multiple_styles;;
  create_focus_variants;;
  create_all_dim_with_guides;;
  create_parallelogram_variants;;
  create_parallelogram_variants_composite;;
  create_space_diagonal_variant;;
  create_reference_grid.

End Script.

(** The state of a fresh run, and the library that never raises. *)
Definition init : state := State [] ∅ [] [].
Definition never : call -> bool := fun _ => false.

(** ** What a step draws

    Most of the script only adds calls to the canvas of the current figure.
    [draws m cs r] says that [m], from every state, adds exactly [cs] and
    ends as [r]. *)

Definition draws {A} (m : M A) (cs : list call) (r : res A) : Prop :=
  forall s, m s = lift r (emits cs s).

(** What [m] draws and how it ends, read off a run on the empty canvas. *)
Definition trace {A} (m : M A) : list call * res A :=
  match m init with
  | Returned a s => (canvas s, inr a)
  | Raised e s => (canvas s, inl e)
  end.

(** [m] draws calls that satisfy [P], and nothing else happens. *)
Definition drawing {A} (P : call -> Prop) (m : M A) : Prop :=
  exists cs r, Forall P cs /\ draws m cs r.

(** [m] draws calls that satisfy [P] and returns. *)
Definition succeeds (P : call -> Prop) (m : M unit) : Prop :=
  exists cs, Forall P cs /\ draws m cs (inr tt).

(** [m] raises, from every state, after drawing some calls. *)
Definition failing {A} (m : M A) : Prop := exists cs e, draws m cs (inl e).

Definition any : call -> Prop := fun _ => True.

(** ** The renderer: what the statements speak of *)

(** The calls that the script wraps in [try: ... except Exception: pass]. *)
Definition handled (c : call) : bool :=
  match c with
  | SetProjType _ | SetBoxAspect _ _ _ | SetAxisOff | PaneFillOff _
  | PaneEdgeNone _ | WAxisLineHide _ | PltAxisOff | Imread _ | Imshow _ _ => true
  | _ => false
  end.

(** The guide target of lines 110-113 as a value. *)
Definition target_of (guide_to : pyval) : pyval3 :=
  match unpack3 guide_to with
  | inr g => g
  | inl _ => (PyFloat 0.0, PyFloat 0.0, PyFloat 0.0)%float
  end.

(** [(float(gx), float(gy), float(gz))] *)
Definition floats_of (g : pyval3) : res pt :=
  let '(gx, gy, gz) := g in
  fx ← py_float gx; fy ← py_float gy; fz ← py_float gz; mret (fx, fy, fz).

Definition is_inr {A B} (x : A + B) : bool :=
  match x with inr _ => true | inl _ => false end.

Definition zero3 : pyval := PyTuple [PyInt 0; PyInt 0; PyInt 0].

(** The geometry that the renderer converts to floats does convert. *)
Definition geometry_ok (p : params) : bool :=
  negb (dpi p =? 0) &&
  match guide_to p with
  | PyNone => true
  | g => is_inr (floats_of (target_of g))
  end &&
  match parallelogram p with
  | None => true
  | Some d =>
      is_inr (float3 (default zero3 (pg_v1 d))) &&
      is_inr (float3 (default zero3 (pg_v2 d)))
  end.

(** The path and the format that [save_figure] writes. *)
Definition out_path (output_path format : string) : string :=
  if String.eqb (lower format) "svg"
  then replace ".png" ".svg" output_path else output_path.

Definition out_format (format : string) : string :=
  if String.eqb (lower format) "svg" then "svg" else "png".

(** The message that the renderer prints for the file at [out]. *)
Definition saved_message (out : string) : string :=
  "3D坐标轴图标已保存到: " +:+ out.

(** The state after the canvas [cv] has been saved at [out], when the
    figure could not be closed. *)
Definition saved_open (out format : string) (cv : list call) (s : state)
  : state :=
  State cv (<[out := File format cv]> (files s)) (written s ++ [out]) (stdout s).

(** The state after the canvas [cv] has been saved at [out] and the figure
    closed, when the message could not be printed. *)
Definition saved_silently (out format : string) (cv : list call) (s : state)
  : state :=
  State [] (<[out := File format cv]> (files s)) (written s ++ [out]) (stdout s).

(** The state after the canvas [cv] has been saved at [out]. *)
Definition saved (out format : string) (cv : list call) (s : state) : state :=
  State [] (<[out := File format cv]> (files s)) (written s ++ [out])
        (stdout s ++ ["3D坐标轴图标已保存到: " +:+ out]).

(** Everything between [plt.figure] and [savefig]. *)
Definition icon_body (raises : call -> bool) (p : params) : M unit :=
  setup_axes raises;;
  draw_axes raises p;;
  draw_guides raises p;;
  style_axes raises;;
  draw_parallelogram raises p;;
  adjust_layout raises.

(** What a figure drawn with parameters [p] holds when it is saved. *)
Definition icon_canvas (raises : call -> bool) (p : params) : list call :=
  Figure (size p) (dpi p) :: (trace (icon_body raises p)).1.

(** The arrows, labels and origin marker for the opacities [(ax, ay, az)]. *)
Definition axes_art (alphas : float * float * float) : list call :=
  let '(ax, ay, az) := alphas in
  [AddArrow (0, axis_length) (0, 0) (0, 0) color_x ax;
   AddArrow (0, 0) (0, axis_length) (0, 0) color_y ay;
   AddArrow (0, 0) (0, 0) (0, axis_length) color_z az;
   Text (axis_length * label_offset) 0 0 "X" color_x ax;
   Text 0 (axis_length * label_offset) 0 "Y" color_y ay;
   Text 0 0 (axis_length * label_offset) "Z" color_z az;
   ScatterOrigin]%float.

Definition coords (t : pt) : list float := let '(a, b, c) := t in [a; b; c].

(** How many coordinates of [t] are [c], as the script compares floats. *)
Definition count_near (c : float) (t : pt) : nat :=
  length (List.filter (near c) (coords t)).

Definition is_plot (c : call) : bool :=
  match c with Plot _ _ _ _ _ _ _ => true | _ => false end.

(** [v1 + v2], coordinate by coordinate, in floats. *)
Definition pt_add (A D : pt) : pt :=
  (A.1.1 + D.1.1, A.1.2 + D.1.2, A.2 + D.2)%float.

(** The four edges of the quadrilateral, in the order of the loop. *)
Definition edges_of (A D : pt) : list (pt * pt) :=
  let B := pt_add A D in [(O, A); (A, B); (B, D); (D, O)].

(** The stroke of the edge from [a] to [b], styled by the dict [d]. *)
Definition edge_stroke (d : parallelogram_dict) (a b : pt) : call :=
  plot_pts a b (default "#b8860b" (pg_edge_color d))
    (default 0.6%float (pg_edge_alpha d)) (default 2.2%float (pg_edge_lw d))
    (default "--" (pg_edge_style d)).

(** The filled polygon through [vs], coloured by the dict [d]. *)
Definition fill_poly (d : parallelogram_dict) (vs : list pt) : call :=
  AddPoly vs (default "#fff6b3" (pg_fill_color d))
    (default 0.35%float (pg_fill_alpha d)).

(** The strokes that the loop of lines 214-224 draws. *)
Definition strokes_of (d : parallelogram_dict) (A D : pt) : list call :=
  map (fun e => edge_stroke d e.1 e.2)
    (List.filter
       (fun e => negb (skip_edge (default true (pg_skip_axis_edges d)) e.1 e.2))
       (edges_of A D)).

(** Equality of points as Python's [==] on tuples of floats. *)
Definition py_eq (p q : pt) : Prop := pt_eqb p q = true.

Definition unit_axis_points : list pt :=
  [(1.0, 0.0, 0.0)%float; (0.0, 1.0, 0.0)%float; (0.0, 0.0, 1.0)%float].

(** The edge from [p] to [q] runs from the origin to a unit axis point. *)
Definition origin_to_unit (p q : pt) : Prop :=
  py_eq p O /\ exists u, u ∈ unit_axis_points /\ py_eq q u.

(** One endpoint is the origin and the other a unit axis point. *)
Definition on_axis_arrow (p q : pt) : Prop :=
  origin_to_unit p q \/ origin_to_unit q p.

(** ** The grid and the run: what the statements speak of *)

(** The axes of the 4 by 4 grid, row by row. *)
Definition axes44 : list (list (nat * nat)) :=
  map (fun r => map (fun c => (r, c)) (seq 0 4)) (seq 0 4).

(** What cell [ax], the [i]-th of the grid, shows of the file system [fs]. *)
Definition cell_image (raises : call -> bool) (fs : gmap string file)
    (i : nat) (ax : nat * nat) : list call :=
  match names !! i with
  | Some name =>
      match fs !! (name +:+ ".png") with
      | Some f =>
          if raises (Imread (name +:+ ".png")) then []
          else if raises (Imshow ax (f_canvas f)) then []
          else [Imshow ax (f_canvas f)]
      | None => []
      end
  | None => []
  end.

Definition cell_calls (raises : call -> bool) (fs : gmap string file)
    (iax : nat * (nat * nat)) : list call :=
  [CellFacecolor iax.2 bg; CellAxisOff iax.2] ++ cell_image raises fs iax.1 iax.2.

(** The canvas of the composite figure over the file system [fs]. *)
Definition grid_canvas (raises : call -> bool) (fs : gmap string file) : list call :=
  [Subplots 4 4; FigFacecolor bg] ++
  flat_map (cell_calls raises fs) (enumerate (ravel axes44)) ++
  [SubplotsAdjustGrid].

(** The state after the composite canvas [cv] has been saved twice. *)
Definition grid_saved (cv : list call) (s : state) : state :=
  State []
    (<["axis_reference_grid.svg" := File "svg" cv]>
       (<["axis_reference_grid.png" := File "png" cv]> (files s)))
    (written s ++ ["axis_reference_grid.png"; "axis_reference_grid.svg"])
    (stdout s ++ ["参考拼图已保存到: axis_reference_grid.png, axis_reference_grid.svg"]).

(** The composite canvas whose [i]-th cell, in row [i / 4] and column
    [i mod 4], holds the background calls and then [shown i]. *)
Definition grid_of (shown : nat -> list call) : list call :=
  [Subplots 4 4; FigFacecolor bg] ++
  flat_map (fun i => [CellFacecolor (i / 4, i mod 4)%nat bg;
                      CellAxisOff (i / 4, i mod 4)%nat] ++ shown i)
           (seq 0 16) ++
  [SubplotsAdjustGrid].

(** A file system that holds an image for each of the 13 names. *)
Definition thirteen_files : state :=
  State []
    (list_to_map (map (fun n => (n +:+ ".png", File "png" [ScatterOrigin])) names))
    [] [].

(** [sub in s] *)
Fixpoint contains (sub s : string) : bool :=
  startswith sub s ||
  match s with
  | EmptyString => false
  | String _ s' => contains sub s'
  end.

(** The 13 named variants, in the order in which the program renders them. *)
Definition variant_bases : list string :=
  ["axis_focus_x"; "axis_focus_y"; "axis_focus_z";
   "axis_dim_011"; "axis_dim_101"; "axis_dim_110";
   "axis_plane_001_010"; "axis_plane_010_100"; "axis_plane_100_001";
   "axis_plane_011_100"; "axis_plane_101_010"; "axis_plane_110_001";
   "axis_diag_111"].

(** The raster and the vector file of a base name. *)
Definition pair_of (base : string) : list string :=
  [base +:+ ".png"; base +:+ ".svg"].

(** Every path that a run writes, in order. *)
Definition outputs : list string :=
  "3d_axis_icon.png" ::
  flat_map pair_of (["axis_standard"; "axis_hires"] ++ variant_bases ++
                    ["axis_reference_grid"]).

(** ** Reasoning about steps that only draw *)

Lemma emits_nil s : emits [] s = s.
Proof. destruct s; unfold emits; simpl. by rewrite app_nil_r. Qed.

Lemma emits_emits cs cs' s : emits cs' (emits cs s) = emits (cs ++ cs') s.
Proof. unfold emits; simpl. by rewrite app_assoc. Qed.

Lemma bind_assoc {A B C} (m : M A) (f : A -> M B) (g : B -> M C) s :
  ((m ≫= f) ≫= g) s = (m ≫= (fun a => f a ≫= g)) s.
Proof. unfold mbind, M_bind. by destruct (m s). Qed.


Lemma draws_trace {A} (m : M A) cs r : draws m cs r -> trace m = (cs, r).
Proof.
  intros H. unfold trace. rewrite (H init). by destruct r.
Qed.

Lemma draws_lift {A} (r : res A) : draws (lift r) [] r.
Proof. intros s. by rewrite emits_nil. Qed.

Lemma draws_mret {A} (a : A) : draws (mret a) [] (inr a).
Proof. intros s. by rewrite emits_nil. Qed.

Lemma draws_bind {A B} (m : M A) (k : A -> M B) cs a cs' r :
  draws m cs (inr a) -> draws (k a) cs' r -> draws (m ≫= k) (cs ++ cs') r.
Proof.
  intros Hm Hk s. unfold mbind, M_bind. rewrite (Hm s). simpl.
  by rewrite (Hk _), emits_emits.
Qed.

Lemma draws_bind_raise {A B} (m : M A) (k : A -> M B) cs e :
  draws m cs (inl e) -> draws (m ≫= k) cs (inl e).
Proof. intros Hm s. unfold mbind, M_bind. by rewrite (Hm s). Qed.

Lemma draws_try_pass (m : M unit) cs r :
  draws m cs r -> draws (try_pass m) cs (inr tt).
Proof.
  intros Hm s. unfold try_pass, try_except. rewrite (Hm s).
  by destruct r as [e | []].
Qed.

Lemma drawing_lift {A} P (r : res A) : drawing P (lift r).
Proof. exists [], r. split; [constructor | apply draws_lift]. Qed.

Lemma drawing_mret {A} P (a : A) : drawing P (mret a).
Proof. exists [], (inr a). split; [constructor | apply draws_mret]. Qed.

Lemma drawing_bind {A B} P (m : M A) (k : A -> M B) :
  drawing P m -> (forall a, drawing P (k a)) -> drawing P (m ≫= k).
Proof.
  intros (cs & [e | a] & Hcs & Hm) Hk.
  - exists cs, (inl e). split; [done | by apply draws_bind_raise].
  - destruct (Hk a) as (cs' & r & Hcs' & Hka).
    exists (cs ++ cs'), r. split; [by apply Forall_app | by eapply draws_bind].
Qed.

Lemma drawing_try_pass P (m : M unit) : drawing P m -> drawing P (try_pass m).
Proof.
  intros (cs & r & Hcs & Hm). exists cs, (inr tt).
  split; [done | by eapply draws_try_pass].
Qed.

Lemma drawing_for_each {A} P (xs : list A) (body : A -> M unit) :
  (forall x, drawing P (body x)) -> drawing P (for_each xs body).
Proof.
  intros Hb. induction xs as [| x xs IH]; simpl.
  - apply drawing_mret.
  - apply drawing_bind; auto.
Qed.

Lemma succeeds_mret P : succeeds P (mret tt).
Proof. exists []. split; [constructor | apply draws_mret]. Qed.

Lemma succeeds_bind P (m k : M unit) :
  succeeds P m -> succeeds P k -> succeeds P (m ≫= fun _ => k).
Proof.
  intros (cs & Hcs & Hm) (cs' & Hcs' & Hk). exists (cs ++ cs').
  split; [by apply Forall_app | by eapply draws_bind].
Qed.

Lemma succeeds_try_pass P (m : M unit) : drawing P m -> succeeds P (try_pass m).
Proof.
  intros (cs & r & Hcs & Hm). exists cs.
  split; [done | by eapply draws_try_pass].
Qed.

Lemma succeeds_for_each {A} P (xs : list A) (body : A -> M unit) :
  (forall x, succeeds P (body x)) -> succeeds P (for_each xs body).
Proof.
  intros Hb. induction xs as [| x xs IH]; simpl.
  - apply succeeds_mret.
  - apply succeeds_bind; auto.
Qed.

Lemma succeeds_lift_bind {A} P (r : res A) (k : A -> M unit) a :
  r = inr a -> succeeds P (k a) -> succeeds P (lift r ≫= k).
Proof.
  intros -> (cs & Hcs & Hk). exists cs. split; [done |].
  change cs with ([] ++ cs). eapply draws_bind; [apply draws_lift | done].
Qed.

(** ** The blocks of the renderer *)

Section Blocks.

Variable raises : call -> bool.

Lemma draws_lib c :
  draws (lib raises c) (if raises c then [] else [c])
        (if raises c then inl LibraryError else inr tt).
Proof.
  intros s. unfold lib. destruct (raises c); simpl.
  - by rewrite emits_nil.
  - reflexivity.
Qed.

Lemma drawing_lib (P : call -> Prop) c : P c -> drawing P (lib raises c).
Proof.
  intros HP. eexists _, _. split; [| apply draws_lib].
  destruct (raises c); repeat constructor; done.
Qed.

Lemma guide_target_eq g s : guide_target g s = Returned (target_of g) s.
Proof.
  unfold guide_target, try_except, target_of, lift.
  by destruct (unpack3 g).
Qed.

Lemma draws_guide_target g : draws (guide_target g) [] (inr (target_of g)).
Proof. intros s. by rewrite guide_target_eq, emits_nil. Qed.

Ltac drawing_tac :=
  repeat first
    [ apply drawing_mret | apply drawing_lift
    | apply drawing_lib; exact I
    | apply drawing_try_pass | apply drawing_for_each; intros
    | apply drawing_bind; [| intros] ].

Lemma drawing_setup_axes : drawing any (setup_axes raises).
Proof. unfold setup_axes. drawing_tac. Qed.

Lemma drawing_draw_axes p : drawing any (draw_axes raises p).
Proof.
  unfold draw_axes. destruct (axis_alphas _ _) as [[ax ay] az]. drawing_tac.
Qed.

Lemma drawing_draw_aux_guides p g : drawing any (draw_aux_guides raises p g).
Proof.
  unfold draw_aux_guides. destruct g as [[gx gy] gz]. drawing_tac.
  destruct (_ && _); drawing_tac.
Qed.

Lemma drawing_draw_extra_guides p : drawing any (draw_extra_guides raises p).
Proof.
  unfold draw_extra_guides. destruct (extra_guides p) as [[| e es] |]; drawing_tac.
  destruct x as [[[sx sy] sz] [[ex ey] ez]]. drawing_tac.
Qed.

Lemma drawing_draw_guides p : drawing any (draw_guides raises p).
Proof.
  unfold draw_guides.
  assert (drawing any (g ← guide_target (guide_to p);
            draw_main_guide raises p g;;
            draw_aux_guides raises p g;; draw_extra_guides raises p)) as H.
  { apply drawing_bind.
    - eexists _, _. split; [| apply draws_guide_target]. constructor.
    - intros [[gx gy] gz]. apply drawing_bind; [unfold draw_main_guide; drawing_tac |].
      intros _. apply drawing_bind; [apply drawing_draw_aux_guides |].
      intros _. apply drawing_draw_extra_guides. }
  destruct (guide_to p); [apply drawing_mret | exact H ..].
Qed.

Lemma drawing_style_axes : drawing any (style_axes raises).
Proof. unfold style_axes. drawing_tac. Qed.

Lemma drawing_draw_parallelogram p : drawing any (draw_parallelogram raises p).
Proof.
  unfold draw_parallelogram. destruct (parallelogram p) as [d |]; drawing_tac.
  destruct x as [e1 e2]. destruct (negb _); drawing_tac.
Qed.

Lemma drawing_adjust_layout : drawing any (adjust_layout raises).
Proof. unfold adjust_layout. drawing_tac. Qed.

(** *** The blocks return when no call outside a [try] raises *)

Hypothesis Hok : forall c, raises c = true -> handled c = true.

Lemma unhandled_ok c : handled c = false -> raises c = false.
Proof.
  intros Hc. destruct (raises c) eqn:E; [| done].
  apply Hok in E. congruence.
Qed.

Lemma succeeds_lib c : handled c = false -> succeeds any (lib raises c).
Proof.
  intros Hc. exists [c]. split; [by repeat constructor |].
  pose proof (draws_lib c) as H. by rewrite (unhandled_ok c Hc) in H.
Qed.

Lemma succeeds_bind_val {A} (m : M A) (k : A -> M unit) a :
  draws m [] (inr a) -> succeeds any (k a) -> succeeds any (m ≫= k).
Proof.
  intros Hm (cs & Hcs & Hk). exists cs. split; [done |].
  change cs with ([] ++ cs). by eapply draws_bind.
Qed.

Lemma handled_plot_aux p start g : handled (plot_aux p start g) = false.
Proof. by destruct start as [[? ?] ?], g as [[? ?] ?]. Qed.

Lemma handled_plot_pts a b color alpha lw style :
  handled (plot_pts a b color alpha lw style) = false.
Proof. by destruct a as [[? ?] ?], b as [[? ?] ?]. Qed.

Ltac succeeds_tac :=
  repeat first
    [ apply succeeds_mret
    | apply succeeds_lib;
      first [reflexivity | apply handled_plot_aux | apply handled_plot_pts]
    | apply succeeds_try_pass; drawing_tac
    | apply succeeds_for_each; intros
    | apply succeeds_bind ].

Lemma succeeds_setup_axes : succeeds any (setup_axes raises).
Proof. unfold setup_axes. succeeds_tac. Qed.

Lemma succeeds_draw_axes p : succeeds any (draw_axes raises p).
Proof.
  unfold draw_axes. destruct (axis_alphas _ _) as [[ax ay] az]. succeeds_tac.
Qed.

Lemma succeeds_style_axes : succeeds any (style_axes raises).
Proof. unfold style_axes. succeeds_tac. Qed.

Lemma succeeds_adjust_layout : succeeds any (adjust_layout raises).
Proof. unfold adjust_layout. succeeds_tac. Qed.

Lemma succeeds_draw_aux_guides p g :
  is_inr (floats_of g) = true -> succeeds any (draw_aux_guides raises p g).
Proof.
  destruct g as [[gx gy] gz]. intros Hg. unfold draw_aux_guides.
  destruct (floats_of (gx, gy, gz)) as [e | t] eqn:Ht; [done |].
  eapply succeeds_lift_bind; [exact Ht |].
  destruct (_ && _); succeeds_tac.
Qed.

Lemma succeeds_draw_extra_guides p : succeeds any (draw_extra_guides raises p).
Proof.
  unfold draw_extra_guides. destruct (extra_guides p) as [[| e es] |]; succeeds_tac.
  destruct x as [[[sx sy] sz] [[ex ey] ez]]. succeeds_tac.
Qed.

Lemma succeeds_draw_guides p :
  geometry_ok p = true -> succeeds any (draw_guides raises p).
Proof.
  unfold geometry_ok. intros [[_ Hg]%andb_true_iff _]%andb_true_iff.
  unfold draw_guides.
  assert (is_inr (floats_of (target_of (guide_to p))) = true ->
          succeeds any (g ← guide_target (guide_to p);
            draw_main_guide raises p g;;
            draw_aux_guides raises p g;; draw_extra_guides raises p)) as H.
  { intros Hf. eapply succeeds_bind_val; [apply draws_guide_target |].
    apply succeeds_bind.
    - unfold draw_main_guide. destruct (target_of _) as [[gx gy] gz]. succeeds_tac.
    - apply succeeds_bind; [by apply succeeds_draw_aux_guides |].
      apply succeeds_draw_extra_guides. }
  destruct (guide_to p); [apply succeeds_mret | by apply H ..].
Qed.

Lemma succeeds_draw_parallelogram p :
  geometry_ok p = true -> succeeds any (draw_parallelogram raises p).
Proof.
  unfold geometry_ok. intros [_ Hp]%andb_true_iff.
  unfold draw_parallelogram. destruct (parallelogram p) as [d |]; [| apply succeeds_mret].
  apply andb_true_iff in Hp as [H1 H2].
  destruct (float3 (default _ (pg_v1 d))) as [e | A] eqn:HA; [done |].
  destruct (float3 (default _ (pg_v2 d))) as [e | D] eqn:HD; [done |].
  eapply succeeds_lift_bind; [done |].
  eapply succeeds_lift_bind; [done |].
  succeeds_tac. destruct x as [e1 e2]. destruct (negb _); succeeds_tac.
Qed.

End Blocks.

(** ** The renderer as a whole *)

Section Renderer.

Variable raises : call -> bool.

Lemma drawing_icon_body p : drawing any (icon_body raises p).
Proof.
  unfold icon_body.
  apply drawing_bind; [apply drawing_setup_axes | intros _].
  apply drawing_bind; [apply drawing_draw_axes | intros _].
  apply drawing_bind; [apply drawing_draw_guides | intros _].
  apply drawing_bind; [apply drawing_style_axes | intros _].
  apply drawing_bind; [apply drawing_draw_parallelogram | intros _].
  apply drawing_adjust_layout.
Qed.

Lemma draws_icon_body p :
  draws (icon_body raises p) (trace (icon_body raises p)).1 (trace (icon_body raises p)).2.
Proof.
  destruct (drawing_icon_body p) as (cs & r & _ & H).
  by rewrite (draws_trace _ _ _ H).
Qed.

Lemma save_figure_eq path format s :
  save_figure raises path format s =
    let out := out_path path format in
    if raises (Savefig out (out_format format)) then Raised OSError s
    else if raises PltClose
    then Raised LibraryError (saved_open out (out_format format) (canvas s) s)
    else if raises (PrintLine (saved_message out))
    then Raised OSError (saved_silently out (out_format format) (canvas s) s)
    else Returned tt (saved out (out_format format) (canvas s) s).
Proof.
  unfold save_figure, out_path, out_format, mbind, M_bind, savefig, print,
    plt_close, saved_message.
  destruct (String.eqb (lower format) "svg"); simpl;
    destruct (raises (Savefig _ _)); try done; simpl;
    destruct (raises PltClose); try done; simpl;
    by destruct (raises (PrintLine _)).
Qed.

Lemma create_unfold path format kwargs s :
  create_3d_axis_icon raises path format kwargs s =
    (let p := bind_kwargs kwargs in
     plt_figure raises (size p) (dpi p);;
     icon_body raises p;;
     save_figure raises path format) s.
Proof.
  unfold create_3d_axis_icon, icon_body, mbind, M_bind. simpl.
  destruct (plt_figure _ _ _ s); [| done].
  repeat match goal with
         | |- context [match ?m ?s with _ => _ end] =>
             is_var s; destruct (m s); [| done]
         end.
  done.
Qed.

(** The renderer, step by step: the division by [dpi], the new figure,
    the drawing, and the file. *)
Lemma create_eq path format kwargs s :
  create_3d_axis_icon raises path format kwargs s =
    let p := bind_kwargs kwargs in
    let out := out_path path format in
    let s1 := State (icon_canvas raises p) (files s) (written s) (stdout s) in
    if dpi p =? 0 then Raised ZeroDivisionError s
    else if raises (Figure (size p) (dpi p)) then Raised LibraryError s
    else match (trace (icon_body raises p)).2 with
         | inl e => Raised e s1
         | inr _ =>
             if raises (Savefig out (out_format format)) then Raised OSError s1
             else if raises PltClose
             then Raised LibraryError
                    (saved_open out (out_format format) (icon_canvas raises p) s)
             else if raises (PrintLine (saved_message out))
             then Raised OSError
                    (saved_silently out (out_format format) (icon_canvas raises p) s)
             else Returned tt (saved out (out_format format) (icon_canvas raises p) s)
         end.
Proof.
  rewrite create_unfold. cbv zeta. unfold mbind, M_bind, plt_figure.
  destruct (dpi _ =? 0); [done |].
  destruct (raises (Figure _ _)); [done |].
  rewrite (draws_icon_body _ _). unfold icon_canvas.
  destruct (trace (icon_body raises _)).2 as [e | []]; simpl; [done |].
  rewrite save_figure_eq. simpl. destruct (raises (Savefig _ _)); [done |].
  destruct (raises PltClose); [done |].
  by destruct (raises (PrintLine _)).
Qed.

Hypothesis Hok : forall c, raises c = true -> handled c = true.

Lemma icon_body_returns p :
  geometry_ok p = true -> (trace (icon_body raises p)).2 = inr tt.
Proof.
  intros Hg.
  assert (succeeds any (icon_body raises p)) as (cs & _ & H).
  { unfold icon_body.
    apply succeeds_bind; [by apply succeeds_setup_axes |].
    apply succeeds_bind; [by apply succeeds_draw_axes |].
    apply succeeds_bind; [by apply succeeds_draw_guides |].
    apply succeeds_bind; [by apply succeeds_style_axes |].
    apply succeeds_bind; [by apply succeeds_draw_parallelogram |].
    by apply succeeds_adjust_layout. }
  by rewrite (draws_trace _ _ _ H).
Qed.

(** With sound geometry and a library that raises only where the script
    expects it, the renderer writes its file and returns. *)
Lemma create_returns path format kwargs s :
  geometry_ok (bind_kwargs kwargs) = true ->
  create_3d_axis_icon raises path format kwargs s =
    Returned tt (saved (out_path path format) (out_format format)
                       (icon_canvas raises (bind_kwargs kwargs)) s).
Proof.
  intros Hg. rewrite create_eq. cbv zeta.
  rewrite (icon_body_returns _ Hg).
  rewrite !(unhandled_ok raises Hok) by done.
  unfold geometry_ok in Hg.
  apply andb_true_iff in Hg as [[Hd _]%andb_true_iff _].
  by destruct (dpi _ =? 0).
Qed.

End Renderer.

(** ** Axis emphasis (lines 71-103) *)

Lemma draw_axes_eq raises p s :
  draw_axes raises p s =
    for_each (axes_art (axis_alphas (normal_axis p) (dim_alpha p))) (lib raises) s.
Proof.
  unfold draw_axes, axes_art.
  destruct (axis_alphas _ _) as [[ax ay] az]. simpl.
  unfold mbind, M_bind.
  repeat match goal with
         | |- context [lib raises ?c ?s] => is_var s; destruct (lib raises c s); [| done]
         end.
  by repeat match goal with u : unit |- _ => destruct u end.
Qed.

Lemma axis_alphas_cases sel d :
  axis_alphas (Some sel) d =
    (if String.eqb (lower sel) "x" then 1.0%float else d,
     if String.eqb (lower sel) "y" then 1.0%float else d,
     if String.eqb (lower sel) "z" then 1.0%float else d).
Proof.
  unfold axis_alphas. simpl.
  destruct (String.eqb (lower sel) "all_dim") eqn:E1;
    [apply String.eqb_eq in E1; by rewrite E1 |].
  destruct (String.eqb (lower sel) "dim_all") eqn:E2;
    [apply String.eqb_eq in E2; by rewrite E2 |].
  destruct (String.eqb (lower sel) "none") eqn:E3;
    [apply String.eqb_eq in E3; by rewrite E3 |].
  reflexivity.
Qed.

(** C3.  For each selector among [x], [y], [z], [all_dim], [none] and for
    no selector, the renderer draws the three arrows and the three labels
    with these opacities: [x], [y] or [z] gives 1.0 to that axis and the dim
    opacity to the other two; [all_dim] and [none] give the dim opacity to
    all three; no selector gives 1.0 to all three. *)
Theorem emphasis_opacity (raises : call -> bool) (p : params) :
  let d := dim_alpha p in
  (forall s, draw_axes raises p s =
     for_each (axes_art (axis_alphas (normal_axis p) d)) (lib raises) s) /\
  axis_alphas None d = (1.0, 1.0, 1.0)%float /\
  axis_alphas (Some "x") d = (1.0%float, d, d) /\
  axis_alphas (Some "y") d = (d, 1.0%float, d) /\
  axis_alphas (Some "z") d = (d, d, 1.0%float) /\
  axis_alphas (Some "all_dim") d = (d, d, d) /\
  axis_alphas (Some "none") d = (d, d, d).
Proof.
  intros d. split; [intros s; apply draw_axes_eq |].
  repeat split; reflexivity.
Qed.


(** ** Guide lines (lines 109-143) *)

Lemma axes_near_length c t : length (axes_near c t) = count_near c t.
Proof.
  destruct t as [[a b] z]. unfold axes_near, count_near. simpl.
  destruct (near c a), (near c b), (near c z); reflexivity.
Qed.

Lemma for_each_map {A} (f : A -> call) (xs : list A) raises s :
  for_each xs (fun x => lib raises (f x)) s = for_each (map f xs) (lib raises) s.
Proof.
  revert s. induction xs as [| x xs IH]; intros s; simpl; [done |].
  unfold mbind, M_bind. destruct (lib raises (f x) s); [apply IH | done].
Qed.

Lemma draw_aux_guides_eq raises p g t s :
  floats_of g = inr t ->
  draw_aux_guides raises p g s =
    for_each
      (map (fun i => plot_aux p (unit_point i) g)
           (if ((count_near 1.0 t =? 2) && (count_near 0.0 t =? 1))%nat
            then axes_near 1.0 t else []))
      (lib raises) s.
Proof.
  destruct g as [[gx gy] gz]. intros Ht. unfold draw_aux_guides.
  change (lift (fx ← py_float gx; fy ← py_float gy; fz ← py_float gz;
                mret (fx, fy, fz)))
    with (lift (floats_of (gx, gy, gz))).
  rewrite Ht. unfold mbind at 1, M_bind at 1. simpl.
  rewrite !axes_near_length.
  destruct (_ && _); [apply for_each_map | done].
Qed.

(** The coordinates that the script takes for 1, when there are two. *)
Lemma axes_near_two c t :
  count_near c t = 2%nat ->
  exists i j, (i < j < 3)%nat /\ axes_near c t = [i; j] /\
    (exists v, coords t !! i = Some v /\ near c v = true) /\
    (exists v, coords t !! j = Some v /\ near c v = true).
Proof.
  destruct t as [[a b] z]. unfold count_near, axes_near. simpl.
  destruct (near c a) eqn:Ea, (near c b) eqn:Eb, (near c z) eqn:Ez;
    simpl; intros H; try discriminate.
  - exists 0%nat, 1%nat. repeat split; try lia; eauto.
  - exists 0%nat, 2%nat. repeat split; try lia; eauto.
  - exists 1%nat, 2%nat. repeat split; try lia; eauto.
Qed.

(** C1, as amended.  When exactly two coordinates of the guide target are 1
    and the third is 0 (each within 1e-9), the renderer draws exactly two
    auxiliary dashed segments, one from the unit point of each coordinate
    that is 1 to the target; for every other target it draws no
    auto-derived auxiliary segment. *)
Theorem aux_guides_rule (raises : call -> bool) (p : params) (g : pyval3) (t : pt) :
  floats_of g = inr t ->
  exists aux,
    (forall s, draw_aux_guides raises p g s = for_each aux (lib raises) s) /\
    (count_near 1.0 t = 2%nat -> count_near 0.0 t = 1%nat ->
     exists i j, (i < j < 3)%nat /\
       aux = [plot_aux p (unit_point i) g; plot_aux p (unit_point j) g] /\
       (exists v, coords t !! i = Some v /\ near 1.0 v = true) /\
       (exists v, coords t !! j = Some v /\ near 1.0 v = true)) /\
    (count_near 1.0 t <> 2%nat \/ count_near 0.0 t <> 1%nat -> aux = []).
Proof.
  intros Ht. eexists. split; [intros s; by apply draw_aux_guides_eq |].
  split.
  - intros H1 H0. rewrite H1, H0. simpl.
    destruct (axes_near_two _ _ H1) as (i & j & Hij & -> & Hi & Hj).
    exists i, j. auto.
  - intros H.
    destruct (count_near 1.0 t =? 2)%nat eqn:E1; [| done].
    destruct (count_near 0.0 t =? 1)%nat eqn:E0; [| done].
    apply Nat.eqb_eq in E1, E0. by destruct H.
Qed.

(** C1, at the target (1, 1, 0). *)
Lemma aux_guides_rule_witness :
  floats_of (PyInt 1, PyInt 1, PyInt 0) = inr (1.0, 1.0, 0.0)%float /\
  exists aux,
    (forall s, draw_aux_guides never defaults (PyInt 1, PyInt 1, PyInt 0) s =
               for_each aux (lib never) s) /\
    (count_near 1.0 (1.0, 1.0, 0.0)%float = 2%nat ->
     count_near 0.0 (1.0, 1.0, 0.0)%float = 1%nat ->
     exists i j, (i < j < 3)%nat /\
       aux = [plot_aux defaults (unit_point i) (PyInt 1, PyInt 1, PyInt 0);
              plot_aux defaults (unit_point j) (PyInt 1, PyInt 1, PyInt 0)] /\
       (exists v, coords (1.0, 1.0, 0.0)%float !! i = Some v /\ near 1.0 v = true) /\
       (exists v, coords (1.0, 1.0, 0.0)%float !! j = Some v /\ near 1.0 v = true)) /\
    (count_near 1.0 (1.0, 1.0, 0.0)%float <> 2%nat \/
     count_near 0.0 (1.0, 1.0, 0.0)%float <> 1%nat -> aux = []).
Proof.
  split; [reflexivity |].
  apply (aux_guides_rule never defaults (PyInt 1, PyInt 1, PyInt 0)
           (1.0, 1.0, 0.0)%float).
  reflexivity.
Defined.

(** C1, as stated, fails.  The target (1, 1, 2) has exactly two
    coordinates equal to 1, and the renderer draws the main guide line
    only. *)
Lemma two_ones_without_a_zero :
  count_near 1.0 (1.0, 1.0, 2.0)%float = 2%nat /\
  floats_of (PyInt 1, PyInt 1, PyInt 2) = inr (1.0, 1.0, 2.0)%float /\
  draw_aux_guides never defaults (PyInt 1, PyInt 1, PyInt 2) init =
    Returned tt init /\
  match create_3d_axis_icon never "icon.png" "png" [guide_to_ (ints 1 1 2)] init with
  | Returned _ s =>
      (fun f => List.filter is_plot (f_canvas f)) <$> files s !! "icon.png"
  | Raised _ _ => None
  end = Some [Plot (PyInt 0, PyInt 1) (PyInt 0, PyInt 1) (PyInt 0, PyInt 2)
                   "#222222" 1.0 3.0 "-"].
Proof. repeat split; vm_compute; reflexivity. Qed.

(** ** The parallelogram (lines 184-224) *)

Lemma for_each_filter_map {A} (keep : A -> bool) (f : A -> call) xs raises s :
  for_each xs (fun x => if keep x then lib raises (f x) else mret tt) s =
  for_each (map f (List.filter keep xs)) (lib raises) s.
Proof.
  revert s. induction xs as [| x xs IH]; intros s; simpl; [done |].
  destruct (keep x); simpl.
  - unfold mbind, M_bind. destruct (lib raises (f x) s); [apply IH | done].
  - apply IH.
Qed.

Lemma draw_parallelogram_eq raises p d A D s :
  parallelogram p = Some d ->
  float3 (default zero3 (pg_v1 d)) = inr A ->
  float3 (default zero3 (pg_v2 d)) = inr D ->
  draw_parallelogram raises p s =
    (lib raises (fill_poly d [O; A; pt_add A D; D]);;
     for_each (strokes_of d A D) (lib raises)) s.
Proof.
  intros Hp HA HD. unfold draw_parallelogram. rewrite Hp.
  fold zero3. rewrite HA, HD.
  unfold mbind at 1, M_bind at 1. simpl.
  unfold mbind at 1, M_bind at 1. simpl.
  unfold mbind, M_bind, fill_poly, pt_add.
  destruct (lib raises _ s) as [[] s1 | e s1]; [| done].
  unfold strokes_of.
  rewrite <- (for_each_filter_map
    (fun e => negb (skip_edge (default true (pg_skip_axis_edges d)) e.1 e.2))
    (fun e => edge_stroke d e.1 e.2)).
  reflexivity.
Qed.

Lemma is_unit_axis_spec q :
  is_unit_axis q = true <-> exists u, u ∈ unit_axis_points /\ py_eq q u.
Proof.
  unfold is_unit_axis. rewrite existsb_exists. fold unit_axis_points.
  split; intros (u & Hu & H); exists u; split; auto;
    by apply list_elem_of_In.
Qed.

Lemma skip_edge_spec p q : skip_edge true p q = true <-> on_axis_arrow p q.
Proof.
  unfold skip_edge, on_axis_arrow, origin_to_unit.
  rewrite <- !is_unit_axis_spec. unfold py_eq.
  destruct (pt_eqb p O), (pt_eqb q O), (is_unit_axis p), (is_unit_axis q);
    simpl; intuition congruence.
Qed.

Lemma plot_pts_inj a b a' b' color alpha lw style :
  plot_pts a b color alpha lw style = plot_pts a' b' color alpha lw style ->
  a = a' /\ b = b'.
Proof.
  destruct a as [[a0 a1] a2], b as [[b0 b1] b2],
           a' as [[a0' a1'] a2'], b' as [[b0' b1'] b2'].
  unfold plot_pts. intros H. inversion H. done.
Qed.

Lemma stroke_in_strokes d A D a b :
  default true (pg_skip_axis_edges d) = true ->
  (a, b) ∈ edges_of A D ->
  edge_stroke d a b ∈ strokes_of d A D <-> ~ on_axis_arrow a b.
Proof.
  intros Hskip Hab. unfold strokes_of. rewrite Hskip.
  rewrite list_elem_of_fmap. setoid_rewrite list_elem_of_In.
  setoid_rewrite filter_In. rewrite <- skip_edge_spec. split.
  - intros ([a' b'] & Heq & _ & Hk). cbn [fst snd] in *.
    apply plot_pts_inj in Heq as [-> ->].
    apply negb_true_iff in Hk. congruence.
  - intros Hn. exists (a, b). cbn [fst snd]. split; [done |].
    split; [by apply list_elem_of_In |].
    apply negb_true_iff. by destruct (skip_edge true a b).
Qed.

(** C2.  With the suppression flag enabled, an edge of the quadrilateral
    (origin, v1, v1+v2, v2) is left unstroked exactly when one of its
    endpoints is the origin and the other is one of the three unit axis
    points; an edge between two points that are not the origin is stroked.
    For v1 = (1,0,0) and v2 = (0,0,1) the two edges at the origin are not
    stroked and the other two are. *)
Theorem edge_suppression :
  (forall (raises : call -> bool) (p : params) (d : parallelogram_dict) (A D : pt),
     parallelogram p = Some d ->
     default true (pg_skip_axis_edges d) = true ->
     float3 (default zero3 (pg_v1 d)) = inr A ->
     float3 (default zero3 (pg_v2 d)) = inr D ->
     exists strokes,
       (forall s, draw_parallelogram raises p s =
          (lib raises (fill_poly d [O; A; pt_add A D; D]);;
           for_each strokes (lib raises)) s) /\
       (forall a b, (a, b) ∈ edges_of A D ->
          edge_stroke d a b ∈ strokes <-> ~ on_axis_arrow a b) /\
       (forall a b, (a, b) ∈ edges_of A D -> ~ py_eq a O -> ~ py_eq b O ->
          edge_stroke d a b ∈ strokes) /\
       (forall c, c ∈ strokes ->
          exists a b, (a, b) ∈ edges_of A D /\ c = edge_stroke d a b)) /\
  (forall (raises : call -> bool) s,
     let d := plane (ints 1 0 0) (ints 0 0 1) in
     let A := (1.0, 0.0, 0.0)%float in
     let D := (0.0, 0.0, 1.0)%float in
     let B := (1.0, 0.0, 1.0)%float in
     draw_parallelogram raises (bind_kwargs [parallelogram_ d]) s =
       (lib raises (fill_poly d [O; A; B; D]);;
        for_each [edge_stroke d A B; edge_stroke d B D] (lib raises)) s).
Proof.
  split.
  - intros raises p d A D Hp Hskip HA HD. exists (strokes_of d A D).
    split; [intros s; by apply draw_parallelogram_eq |].
    split; [intros a b; by apply stroke_in_strokes |].
    split.
    + intros a b Hab Ha Hb. apply stroke_in_strokes; [done .. |].
      unfold on_axis_arrow, origin_to_unit. tauto.
    + intros c Hc. unfold strokes_of in Hc.
      apply list_elem_of_fmap in Hc as ([a b] & -> & He).
      apply list_elem_of_In, filter_In in He as [He _].
      exists a, b. split; [by apply list_elem_of_In | done].
  - intros raises s d A D B.
    by rewrite (draw_parallelogram_eq raises _ d A D s).
Qed.

(** C2, at v1 = (0, 1, 1), v2 = (1, 0, 0). *)
Lemma edge_suppression_witness :
  let d := plane (ints 0 1 1) (ints 1 0 0) in
  let A := (0.0, 1.0, 1.0)%float in
  let D := (1.0, 0.0, 0.0)%float in
  exists strokes,
    (forall s, draw_parallelogram never (bind_kwargs [parallelogram_ d]) s =
       (lib never (fill_poly d [O; A; pt_add A D; D]);;
        for_each strokes (lib never)) s) /\
    (forall a b, (a, b) ∈ edges_of A D ->
       edge_stroke d a b ∈ strokes <-> ~ on_axis_arrow a b) /\
    (forall a b, (a, b) ∈ edges_of A D -> ~ py_eq a O -> ~ py_eq b O ->
       edge_stroke d a b ∈ strokes) /\
    (forall c, c ∈ strokes ->
       exists a b, (a, b) ∈ edges_of A D /\ c = edge_stroke d a b).
Proof.
  apply (proj1 edge_suppression never
           (bind_kwargs [parallelogram_ (plane (ints 0 1 1) (ints 1 0 0))])
           (plane (ints 0 1 1) (ints 1 0 0))); reflexivity.
Defined.

(** C7.  The shape that the renderer fills is the quadrilateral with the
    vertices origin, v1, v1+v2, v2, in this order; the other calls of the
    block stroke its edges. *)
Theorem parallelogram_vertices (raises : call -> bool) (p : params)
    (d : parallelogram_dict) (v1 v2 : pt) :
  parallelogram p = Some d ->
  float3 (default zero3 (pg_v1 d)) = inr v1 ->
  float3 (default zero3 (pg_v2 d)) = inr v2 ->
  exists strokes,
    Forall (fun c => is_plot c = true) strokes /\
    forall s, draw_parallelogram raises p s =
      (lib raises (fill_poly d [O; v1; pt_add v1 v2; v2]);;
       for_each strokes (lib raises)) s.
Proof.
  intros Hp H1 H2. exists (strokes_of d v1 v2). split.
  - unfold strokes_of. apply Forall_fmap, Forall_forall. intros [a b] _.
    simpl. unfold edge_stroke. by destruct a as [[? ?] ?], b as [[? ?] ?].
  - intros s. by apply draw_parallelogram_eq.
Qed.

(** C7, at v1 = (1, 1, 0), v2 = (0, 0, 1). *)
Lemma parallelogram_vertices_witness :
  let d := plane (ints 1 1 0) (ints 0 0 1) in
  exists strokes,
    Forall (fun c => is_plot c = true) strokes /\
    forall s, draw_parallelogram never (bind_kwargs [parallelogram_ d]) s =
      (lib never (fill_poly d [O; (1.0, 1.0, 0.0)%float; (1.0, 1.0, 1.0)%float;
                               (0.0, 0.0, 1.0)%float]);;
       for_each strokes (lib never)) s.
Proof.
  apply (parallelogram_vertices never
           (bind_kwargs [parallelogram_ (plane (ints 1 1 0) (ints 0 0 1))])
           (plane (ints 1 1 0) (ints 0 0 1))
           (1.0, 1.0, 0.0)%float (0.0, 0.0, 1.0)%float); reflexivity.
Defined.

(** ** Failures (lines 109-113 and 230-239) *)

Lemma failing_bind_l {A B} (m : M A) (k : A -> M B) :
  failing m -> failing (m ≫= k).
Proof. intros (cs & e & H). exists cs, e. by apply draws_bind_raise. Qed.

Lemma failing_bind_r {A B} (m : M A) (k : A -> M B) :
  drawing any m -> (forall a, failing (k a)) -> failing (m ≫= k).
Proof.
  intros (cs & [e | a] & _ & Hm) Hk.
  - exists cs, e. by apply draws_bind_raise.
  - destruct (Hk a) as (cs' & e & Hka). exists (cs ++ cs'), e.
    by eapply draws_bind.
Qed.

Lemma failing_lift {A} (e : exn) : failing (lift (inl e : res A)).
Proof. exists [], e. apply draws_lift. Qed.


Section Failures.

Variable raises : call -> bool.


Lemma failing_draw_parallelogram p d :
  parallelogram p = Some d ->
  is_inr (float3 (default zero3 (pg_v1 d))) &&
  is_inr (float3 (default zero3 (pg_v2 d))) = false ->
  failing (draw_parallelogram raises p).
Proof.
  intros Hp Hf. unfold draw_parallelogram. rewrite Hp. fold zero3.
  destruct (float3 (default zero3 (pg_v1 d))) as [e | A];
    [apply failing_bind_l, failing_lift |].
  destruct (float3 (default zero3 (pg_v2 d))) as [e | D]; [| done].
  apply failing_bind_r; [apply drawing_lift |].
  intros A'. apply failing_bind_l, failing_lift.
Qed.


Lemma failing_icon_body_parallelogram p d :
  parallelogram p = Some d ->
  is_inr (float3 (default zero3 (pg_v1 d))) &&
  is_inr (float3 (default zero3 (pg_v2 d))) = false ->
  failing (icon_body raises p).
Proof.
  intros Hp Hf. unfold icon_body.
  apply failing_bind_r; [apply drawing_setup_axes | intros _].
  apply failing_bind_r; [apply drawing_draw_axes | intros _].
  apply failing_bind_r; [apply drawing_draw_guides | intros _].
  apply failing_bind_r; [apply drawing_style_axes | intros _].
  apply failing_bind_l. by eapply failing_draw_parallelogram.
Qed.

Lemma create_raises_body path format kwargs s :
  failing (icon_body raises (bind_kwargs kwargs)) ->
  exists e s', create_3d_axis_icon raises path format kwargs s = Raised e s' /\
               files s' = files s /\ written s' = written s.
Proof.
  intros (cs & e & H). rewrite create_eq. cbv zeta.
  rewrite (draws_trace _ _ _ H). simpl.
  destruct (dpi _ =? 0); [by eauto |].
  destruct (raises (Figure _ _)); by eauto.
Qed.


End Failures.

(** *** Calls outside the [try] blocks

    [propagating P]: run with the library that never raises, [P] draws some
    calls [cs]; run with any library, it raises as soon as a call of [cs]
    that no [try] block handles raises, and whenever the run that never
    raises in the library raises. *)























(** *** The calls of a run in which the library never raises *)












Section Unguarded.

Variable raises : call -> bool.




End Unguarded.






(** ** The reference grid (lines 379-404) *)

Lemma for_each_emits {A} (body : A -> M unit)
    (f : gmap string file -> A -> list call) xs s :
  (forall x s, body x s = Returned tt (emits (f (files s) x) s)) ->
  for_each xs body s = Returned tt (emits (flat_map (f (files s)) xs) s).
Proof.
  intros Hb. revert s. induction xs as [| x xs IH]; intros s; simpl.
  - by rewrite emits_nil.
  - unfold mbind, M_bind. rewrite Hb, IH. simpl. by rewrite emits_emits.
Qed.

Section Grid.

Variable raises : call -> bool.
Hypothesis Hok : forall c, raises c = true -> handled c = true.

Lemma lib_ok c s : handled c = false -> lib raises c s = Returned tt (emit c s).
Proof. intros Hc. unfold lib. by rewrite (unhandled_ok raises Hok). Qed.

Lemma fill_cell_eq i ax s :
  fill_cell raises i ax s =
    Returned tt (emits (cell_calls raises (files s) (i, ax)) s).
Proof.
  unfold fill_cell, cell_calls, cell_image. cbn [fst snd].
  unfold mbind at 1, M_bind at 1. rewrite lib_ok by done.
  unfold mbind at 1, M_bind at 1. rewrite lib_ok by done.
  destruct (names !! i) as [name |] eqn:Hn.
  - pose proof (lookup_lt_Some _ _ _ Hn) as Hlt.
    apply Nat.ltb_lt in Hlt. rewrite Hlt. cbn [default].
    unfold try_pass, try_except, imread, lib, mbind, M_bind. cbn [files emit].
    destruct (files s !! (name +:+ ".png")) as [f |] eqn:Hf;
      cbn; rewrite ?Hf; cbn.
    + destruct (raises (Imread _)).
      * unfold emit, emits. cbn. by rewrite <- app_assoc.
      * destruct (raises (Imshow _ _)); unfold emit, emits; cbn;
          by rewrite <- !app_assoc.
    + unfold emit, emits. cbn. by rewrite <- app_assoc.
  - pose proof (proj1 (lookup_ge_None _ _) Hn) as Hge.
    apply Nat.ltb_ge in Hge. rewrite Hge.
    unfold emit, emits. cbn. by rewrite <- app_assoc.
Qed.

(** The grid is composed whatever files are there. *)
Lemma create_reference_grid_eq s :
  create_reference_grid raises s =
    Returned tt (grid_saved (grid_canvas raises (files s)) s).
Proof.
  unfold create_reference_grid, mbind, M_bind, plt_subplots.
  rewrite (unhandled_ok raises Hok) by done.
  rewrite lib_ok by done.
  fold axes44.
  rewrite (for_each_emits _ (cell_calls raises)).
  2:{ intros [i ax] s0. apply fill_cell_eq. }
  rewrite lib_ok by done.
  unfold savefig, print, plt_close. rewrite !(unhandled_ok raises Hok) by done.
  unfold grid_saved, grid_canvas, emit, emits. simpl.
  rewrite <- !app_assoc. reflexivity.
Qed.

End Grid.

Lemma grid_canvas_eq raises fs :
  grid_canvas raises fs =
    grid_of (fun i => cell_image raises fs i (i / 4, i mod 4)%nat).
Proof. reflexivity. Qed.

Lemma grid_of_ext shown shown' :
  (forall i, (i < 16)%nat -> shown i = shown' i) -> grid_of shown = grid_of shown'.
Proof.
  intros H. unfold grid_of. do 2 f_equal.
  assert (forall l, (forall i, In i l -> (i < 16)%nat) ->
    flat_map (fun i => [CellFacecolor (i / 4, i mod 4)%nat bg;
                        CellAxisOff (i / 4, i mod 4)%nat] ++ shown i) l =
    flat_map (fun i => [CellFacecolor (i / 4, i mod 4)%nat bg;
                        CellAxisOff (i / 4, i mod 4)%nat] ++ shown' i) l) as Hl.
  { induction l as [| i l IH]; intros Hin; [done |].
    cbn [flat_map]. rewrite H by (apply Hin; by left).
    rewrite IH; [done |]. intros j Hj. apply Hin. by right. }
  apply Hl. intros i Hi. apply in_seq in Hi. lia.
Qed.

Lemma names_length : length names = 13%nat.
Proof. reflexivity. Qed.

(** The 13 source files but the one of [axis_focus_y]. *)
Definition twelve_files : state :=
  State [] (delete "axis_focus_y.png" (files thirteen_files)) [] [].

(** C6.  Whatever source files are missing when the grid is composed,
    and whatever reading or showing an image raises, composition returns
    and writes the composite image, of 16 cells with their background.  The
    cell of a missing file shows no image; the cell of a file that is there
    shows its image, unless reading or showing it raises, and then the
    cell shows no image either; the cells after the 13th show none. *)
Theorem grid_tolerates_missing_files (raises : call -> bool) (s : state) :
  (forall c, raises c = true -> handled c = true) ->
  exists shown,
    create_reference_grid raises s = Returned tt (grid_saved (grid_of shown) s) /\
    (forall i, (13 <= i)%nat -> shown i = []) /\
    forall i name, names !! i = Some name ->
      let ax := (i / 4, i mod 4)%nat in
      match files s !! (name +:+ ".png") with
      | None => shown i = []
      | Some f =>
          shown i =
            if raises (Imread (name +:+ ".png")) || raises (Imshow ax (f_canvas f))
            then [] else [Imshow ax (f_canvas f)]
      end.
Proof.
  intros Hok.
  exists (fun i => cell_image raises (files s) i (i / 4, i mod 4)%nat).
  split; [| split].
  - rewrite (create_reference_grid_eq raises Hok). by rewrite grid_canvas_eq.
  - intros i Hi. unfold cell_image.
    rewrite <- names_length in Hi. apply lookup_ge_None in Hi. by rewrite Hi.
  - intros i name Hn. cbv zeta. unfold cell_image. rewrite Hn.
    destruct (files s !! (name +:+ ".png")) as [f |]; [| done].
    by destruct (raises (Imread _)).
Qed.

(** C6, with the file of [axis_focus_y] missing and the other 12 there:
    the second cell is blank and the first shows its image. *)
Lemma grid_tolerates_missing_files_witness :
  exists shown,
    create_reference_grid never twelve_files =
      Returned tt (grid_saved (grid_of shown) twelve_files) /\
    shown 1%nat = [] /\
    shown 0%nat = [Imshow (0, 0)%nat [ScatterOrigin]] /\
    shown 13%nat = [].
Proof.
  destruct (grid_tolerates_missing_files never twelve_files)
    as (shown & Hrun & Hlast & Hcells).
  { intros c H. discriminate H. }
  exists shown. split; [exact Hrun |].
  split; [exact (Hcells 1%nat "axis_focus_y" eq_refl) |].
  split; [exact (Hcells 0%nat "axis_focus_x" eq_refl) |].
  apply Hlast. lia.
Defined.

(** C9.  The grid has 4 rows of 4 cells; the [i]-th of the 13 names is
    shown in row [i / 4], column [i mod 4]; the last three cells show
    nothing; the figure and every cell get the light-gray background; and
    the composite is written once as a raster and once as a vector file. *)
Theorem grid_layout (raises : call -> bool) (s : state)
    (imgs : nat -> list call) :
  (forall c, raises c = false) ->
  (forall i name, names !! i = Some name ->
     exists f, files s !! (name +:+ ".png") = Some f /\ f_canvas f = imgs i) ->
  length names = 13%nat /\
  bg = "#eeeeee" /\
  create_reference_grid raises s =
    Returned tt
      (grid_saved
         (grid_of (fun i => if (i <? 13)%nat
                            then [Imshow (i / 4, i mod 4)%nat (imgs i)] else []))
         s).
Proof.
  intros Hnever Hfiles. split; [reflexivity |]. split; [reflexivity |].
  rewrite (create_reference_grid_eq raises) by (intros c; by rewrite Hnever).
  rewrite grid_canvas_eq. f_equal. f_equal. apply grid_of_ext.
  intros i _. unfold cell_image.
  destruct (names !! i) as [name |] eqn:Hn.
  - pose proof (lookup_lt_Some _ _ _ Hn) as Hlt. rewrite names_length in Hlt.
    apply Nat.ltb_lt in Hlt. rewrite Hlt.
    destruct (Hfiles i name Hn) as (f & -> & <-). by rewrite !Hnever.
  - pose proof (proj1 (lookup_ge_None _ _) Hn) as Hge.
    rewrite names_length in Hge. apply Nat.ltb_ge in Hge. by rewrite Hge.
Qed.

(** C9, with all 13 source files there. *)
Lemma grid_layout_witness :
  length names = 13%nat /\
  bg = "#eeeeee" /\
  create_reference_grid never thirteen_files =
    Returned tt
      (grid_saved
         (grid_of (fun i => if (i <? 13)%nat
                            then [Imshow (i / 4, i mod 4)%nat [ScatterOrigin]] else []))
         thirteen_files).
Proof.
  apply (grid_layout never thirteen_files (fun _ => [ScatterOrigin])).
  - reflexivity.
  - intros i name Hn. exists (File "png" [ScatterOrigin]).
    split; [| reflexivity].
    do 13 (destruct i as [| i];
           [injection Hn as <-; vm_compute; reflexivity |]).
    discriminate Hn.
Defined.

(** ** The batch helper (lines 243-246) *)



Lemma create_returned_inv raises path format kwargs s s' :
  create_3d_axis_icon raises path format kwargs s = Returned tt s' ->
  s' = saved (out_path path format) (out_format format)
             (icon_canvas raises (bind_kwargs kwargs)) s.
Proof.
  rewrite create_eq. cbv zeta.
  destruct (dpi _ =? 0); [done |].
  destruct (raises (Figure _ _)); [done |].
  destruct (trace _).2; [done |].
  destruct (raises (Savefig _ _)); [done |].
  destruct (raises PltClose); [done |].
  destruct (raises (PrintLine _)); [done |].
  by intros [= <-].
Qed.




(** ** The whole run (lines 406-429) *)

Lemma written_saved out format cv s : written (saved out format cv s) = written s ++ [out].
Proof. reflexivity. Qed.

Lemma written_grid_saved cv s :
  written (grid_saved cv s) =
    written s ++ ["axis_reference_grid.png"; "axis_reference_grid.svg"].
Proof. reflexivity. Qed.

Section Run.

Variable raises : call -> bool.
Hypothesis Hok : forall c, raises c = true -> handled c = true.

Lemma create_step {B} path format kwargs (k : unit -> M B) s :
  geometry_ok (bind_kwargs kwargs) = true ->
  (create_3d_axis_icon raises path format kwargs ≫= k) s =
    k tt (saved (out_path path format) (out_format format)
                (icon_canvas raises (bind_kwargs kwargs)) s).
Proof.
  intros Hg. unfold mbind, M_bind. by rewrite (create_returns raises Hok).
Qed.

Lemma print_step {B} line (k : unit -> M B) s :
  (print raises line ≫= k) s =
    k tt (State (canvas s) (files s) (written s) (stdout s ++ [line])).
Proof.
  unfold mbind, M_bind, print. by rewrite (unhandled_ok raises Hok).
Qed.

Lemma main_returns s :
  exists s', main raises s = Returned tt s' /\ written s' = written s ++ outputs.
Proof.
  unfold main, create_multiple_styles, create_focus_variants,
    create_all_dim_with_guides, create_parallelogram_variants,
    create_parallelogram_variants_composite, create_space_diagonal_variant,
    _save_both.
  cbv zeta.
  repeat first
    [ rewrite bind_assoc
    | rewrite create_step by (vm_compute; reflexivity); cbv beta
    | rewrite print_step; cbv beta ].
  rewrite (create_reference_grid_eq raises Hok).
  eexists. split; [reflexivity |].
  rewrite written_grid_saved, !written_saved. cbn [written].
  rewrite <- !app_assoc. f_equal.
Qed.

End Run.

(** C4, as amended.  A run in which the library raises only where the script expects
    it returns, and writes these files: the 13 named variants as a raster
    and a vector file each, the standard and the high-resolution variant as
    such a pair each, the composite as one pair, and the lone default
    raster [3d_axis_icon.png]; no path is written twice. *)
Theorem full_run_outputs (raises : call -> bool) (s : state) :
  (forall c, raises c = true -> handled c = true) ->
  exists s',
    main raises s = Returned tt s' /\
    written s' = written s ++ outputs /\
    outputs = "3d_axis_icon.png" ::
              flat_map pair_of (["axis_standard"; "axis_hires"] ++ variant_bases ++
                                ["axis_reference_grid"]) /\
    length variant_bases = 13%nat /\
    variant_bases ≡ₚ names /\
    NoDup outputs.
Proof.
  intros Hok. destruct (main_returns raises Hok s) as (s' & Hs' & Hw).
  exists s'. repeat split; try done.
  - unfold variant_bases, names. do 3 apply perm_skip. symmetry.
    apply (Permutation_cons_append
             ["axis_dim_011"; "axis_dim_101"; "axis_dim_110";
              "axis_plane_001_010"; "axis_plane_010_100"; "axis_plane_100_001";
              "axis_plane_011_100"; "axis_plane_101_010"; "axis_plane_110_001"]
             "axis_diag_111").
  - refine (bool_decide_unpack _ _). vm_compute. exact I.
Qed.

(** C4, for a library that never raises, from the fresh state. *)
Lemma full_run_outputs_witness :
  exists s',
    main never init = Returned tt s' /\
    written s' = written init ++ outputs /\
    outputs = "3d_axis_icon.png" ::
              flat_map pair_of (["axis_standard"; "axis_hires"] ++ variant_bases ++
                                ["axis_reference_grid"]) /\
    length variant_bases = 13%nat /\
    variant_bases ≡ₚ names /\
    NoDup outputs.
Proof.
  apply (full_run_outputs never init). intros c H. discriminate H.
Defined.

(** C4, as stated, fails.  The run writes 33 files and not 32: its first
    call renders the default icon as a raster file only, so that
    [3d_axis_icon.png] is written, belongs to none of the 16 pairs and has
    no vector file beside it. *)
Lemma default_raster_has_no_pair :
  exists s',
    main never init = Returned tt s' /\
    length (written s') = 33%nat /\
    "3d_axis_icon.png" ∈ written s' /\
    ("3d_axis_icon.svg" ∉ written s') /\
    ("3d_axis_icon.png" ∉
       flat_map pair_of (["axis_standard"; "axis_hires"] ++ variant_bases ++
                         ["axis_reference_grid"])).
Proof.
  destruct (main_returns never (fun c (H : never c = true) =>
              False_ind (handled c = true) (Bool.diff_false_true H)) init)
    as (s' & Hs' & Hw).
  exists s'. split; [exact Hs' |]. rewrite Hw.
  split; [reflexivity |].
  split; [left |].
  split; refine (bool_decide_unpack _ _); vm_compute; exact I.
Qed.

(** * Further properties of the script *)

(** ** Letter case of the selector and of the format (lines 73-79, 231) *)

Lemma lower_ascii_idem c : lower_ascii (lower_ascii c) = lower_ascii c.
Proof. destruct c as [[] [] [] [] [] [] [] []]; reflexivity. Qed.

Lemma lower_idem s : lower (lower s) = lower s.
Proof.
  induction s as [| c s IH]; [done |].
  simpl. by rewrite lower_ascii_idem, IH.
Qed.

(** X1.  The selector is read without regard to letter case: a selector
    and its lowercase form give the same three opacities, so [X] emphasises
    the X axis and [All_Dim] dims all three. *)
Theorem selector_ignores_case (sel : string) (d : float) :
  axis_alphas (Some sel) d = axis_alphas (Some (lower sel)) d /\
  (lower sel = "x" -> axis_alphas (Some sel) d = (1.0%float, d, d)) /\
  (lower sel = "y" -> axis_alphas (Some sel) d = (d, 1.0%float, d)) /\
  (lower sel = "z" -> axis_alphas (Some sel) d = (d, d, 1.0%float)) /\
  (lower sel = "all_dim" \/ lower sel = "dim_all" \/ lower sel = "none" ->
   axis_alphas (Some sel) d = (d, d, d)).
Proof.
  rewrite !axis_alphas_cases, lower_idem.
  repeat split; try (by intros ->).
  by intros [-> | [-> | ->]].
Qed.

Section Format.

Variable raises : call -> bool.

Lemma out_path_lower path format : out_path path (lower format) = out_path path format.
Proof. unfold out_path. by rewrite lower_idem. Qed.

Lemma out_format_lower format : out_format (lower format) = out_format format.
Proof. unfold out_format. by rewrite lower_idem. Qed.

(** X2.  The format is read without regard to letter case, and only
    [svg] is told apart: with any other format the renderer writes a [png]
    file at the output path as it was given. *)
Theorem format_ignores_case_and_defaults_to_png (path format : string)
    (kwargs : list kwarg) (s : state) :
  create_3d_axis_icon raises path (lower format) kwargs s =
    create_3d_axis_icon raises path format kwargs s /\
  (lower format <> "svg" ->
   forall s', create_3d_axis_icon raises path format kwargs s = Returned tt s' ->
     files s' !! path =
       Some (File "png" (icon_canvas raises (bind_kwargs kwargs))) /\
     written s' = written s ++ [path]).
Proof.
  split.
  - by rewrite !create_eq, out_path_lower, out_format_lower.
  - intros Hf s' H. apply create_returned_inv in H. subst s'.
    unfold out_path, out_format.
    destruct (String.eqb (lower format) "svg") eqn:E;
      [by apply String.eqb_eq in E |].
    split; [apply lookup_insert_eq | reflexivity].
Qed.

End Format.

(** ** The path of a vector file (line 232) *)

Lemma contains_svg_prefix s :
  contains ".png" (".svg" +:+ s) = contains ".png" s.
Proof. reflexivity. Qed.

Lemma startswith_cons a p c s :
  startswith (String a p) (String c s) =
    if Ascii.eqb a c then startswith p s else false.
Proof. reflexivity. Qed.

Lemma starts_with_dot c s :
  startswith ".png" (String c s) = true -> c = Ascii.ascii_of_nat 46.
Proof.
  cbn [startswith]. destruct (Ascii.eqb _ c) eqn:Ec; [| done].
  apply Ascii.eqb_eq in Ec. by subst c.
Qed.

Lemma startswith_g_replace s :
  startswith "g" (replace_from 0 ".png" ".svg" s) = startswith "g" s.
Proof.
  destruct s as [| c s]; [done |]. cbn [replace_from].
  destruct (startswith ".png" (String c s)) eqn:E; [| done].
  by apply starts_with_dot in E as ->.
Qed.

Lemma startswith_ng_replace s :
  startswith "ng" (replace_from 0 ".png" ".svg" s) = startswith "ng" s.
Proof.
  destruct s as [| c s]; [done |]. cbn [replace_from].
  destruct (startswith ".png" (String c s)) eqn:E.
  - by apply starts_with_dot in E as ->.
  - rewrite !startswith_cons. by rewrite startswith_g_replace.
Qed.

Lemma startswith_png_replace s :
  startswith "png" (replace_from 0 ".png" ".svg" s) = startswith "png" s.
Proof.
  destruct s as [| c s]; [done |]. cbn [replace_from].
  destruct (startswith ".png" (String c s)) eqn:E.
  - by apply starts_with_dot in E as ->.
  - rewrite !startswith_cons. by rewrite startswith_ng_replace.
Qed.

Lemma replace_from_no_png s : forall k,
  contains ".png" (replace_from k ".png" ".svg" s) = false.
Proof.
  induction s as [| c s IH]; intros k; [done |].
  cbn [replace_from]. destruct k as [| k]; [| apply IH].
  destruct (startswith ".png" (String c s)) eqn:E.
  - rewrite contains_svg_prefix. apply IH.
  - cbn [contains]. rewrite IH, orb_false_r.
    rewrite startswith_cons in *. by rewrite startswith_png_replace.
Qed.

Lemma replace_unchanged s :
  contains ".png" s = false -> replace ".png" ".svg" s = s.
Proof.
  unfold replace. induction s as [| c s IH]; [done |].
  intros H. cbn [contains] in H. apply orb_false_iff in H as [Hs Hc].
  cbn [replace_from]. rewrite Hs. f_equal. by apply IH.
Qed.

Lemma startswith_png_app_png c s :
  startswith ".png" (String c s) = false ->
  startswith ".png" (String c s +:+ ".png") = false.
Proof.
  destruct s as [| c2 [| c3 [| c4 s]]]; simpl; try done;
    repeat match goal with
           | |- context [Ascii.eqb ?a ?b] => destruct (Ascii.eqb a b); try done
           end.
Qed.

Lemma replace_png_suffix base :
  contains ".png" base = false ->
  replace ".png" ".svg" (base +:+ ".png") = base +:+ ".svg".
Proof.
  unfold replace. induction base as [| c base IH]; [reflexivity |].
  intros H. cbn [contains] in H. apply orb_false_iff in H as [Hs Hc].
  change (String c base +:+ ".png") with (String c (base +:+ ".png")).
  cbn [replace_from].
  change (String c (base +:+ ".png")) with (String c base +:+ ".png").
  rewrite (startswith_png_app_png _ _ Hs).
  change (String c base +:+ ".svg") with (String c (base +:+ ".svg")).
  f_equal. by apply IH.
Qed.

(** X3.  The path that a vector file is written to never has [".png"] in
    it; it is the output path itself when that has no [".png"] (no
    extension is added), and [base.svg] for an output path [base.png]. *)
Theorem svg_path (path : string) :
  contains ".png" (out_path path "svg") = false /\
  (contains ".png" path = false -> out_path path "svg" = path) /\
  (forall base, contains ".png" base = false -> path = base +:+ ".png" ->
     out_path path "svg" = base +:+ ".svg").
Proof.
  change (out_path path "svg") with (replace ".png" ".svg" path).
  split; [apply replace_from_no_png |].
  split; [apply replace_unchanged |].
  intros base Hb ->. by apply replace_png_suffix.
Qed.

(** ** What one rendering does to the state (lines 20-240) *)

Section Effect.

Variable raises : call -> bool.

(** X4.  A rendering that returns has written exactly one file, over what
    was at its path, and has left every other file as it was; the figure is
    closed and one line is printed. *)
Theorem render_writes_one_file (path format : string) (kwargs : list kwarg)
    (s s' : state) :
  create_3d_axis_icon raises path format kwargs s = Returned tt s' ->
  let out := out_path path format in
  files s' !! out =
    Some (File (out_format format) (icon_canvas raises (bind_kwargs kwargs))) /\
  (forall q, q <> out -> files s' !! q = files s !! q) /\
  written s' = written s ++ [out] /\
  canvas s' = [] /\
  stdout s' = stdout s ++ ["3D坐标轴图标已保存到: " +:+ out].
Proof.
  intros H. apply create_returned_inv in H. subst s'. cbv zeta.
  unfold saved. cbn [files written canvas stdout].
  repeat split.
  - apply lookup_insert_eq.
  - intros q Hq. by apply lookup_insert_ne.
Qed.

End Effect.

(** The default icon, rendered by a library that never raises. *)
Definition default_icon : state :=
  saved "3d_axis_icon.png" "png" (icon_canvas never (bind_kwargs [])) init.

Lemma never_handled c : never c = true -> handled c = true.
Proof. intros H. discriminate H. Qed.

Lemma default_icon_rendered s :
  create_3d_axis_icon never default_output_path default_format [] s =
    Returned tt (saved "3d_axis_icon.png" "png" (icon_canvas never (bind_kwargs [])) s).
Proof. by rewrite (create_returns never never_handled). Qed.

(** X4, for the default icon. *)
Lemma render_writes_one_file_witness :
  files default_icon !! "3d_axis_icon.png" =
    Some (File "png" (icon_canvas never (bind_kwargs []))) /\
  (forall q, q <> "3d_axis_icon.png" -> files default_icon !! q = files init !! q) /\
  written default_icon = written init ++ ["3d_axis_icon.png"] /\
  canvas default_icon = [] /\
  stdout default_icon =
    stdout init ++ ["3D坐标轴图标已保存到: " +:+ "3d_axis_icon.png"].
Proof.
  apply (render_writes_one_file never default_output_path default_format []
           init default_icon).
  apply default_icon_rendered.
Defined.


(** ** Guide lines without a target (lines 109, 139-143) *)

Lemma bind_kwargs_app kwargs k :
  bind_kwargs (kwargs ++ [k]) = bind_kwarg (bind_kwargs kwargs) k.
Proof. unfold bind_kwargs. by rewrite foldl_app. Qed.

(** X7.  Extra guide segments are drawn only together with a guide target:
    without [guide_to], passing [extra_guides] changes nothing of what the
    renderer does. *)
Theorem extra_guides_need_a_target (raises : call -> bool) (path format : string)
    (kwargs : list kwarg) (extra : list (pyval3 * pyval3)) (s : state) :
  guide_to (bind_kwargs kwargs) = PyNone ->
  create_3d_axis_icon raises path format (kwargs ++ [extra_guides_ extra]) s =
    create_3d_axis_icon raises path format kwargs s.
Proof.
  intros Hg. unfold create_3d_axis_icon. rewrite bind_kwargs_app.
  destruct (bind_kwargs kwargs). cbn [guide_to] in Hg. subst. reflexivity.
Qed.

(** X7, for the default icon and the three segments of the space
    diagonal. *)
Lemma extra_guides_need_a_target_witness :
  let extra :=
    [((PyInt 1, PyInt 0, PyInt 0), (PyInt 1, PyInt 1, PyInt 1));
     ((PyInt 0, PyInt 1, PyInt 0), (PyInt 1, PyInt 1, PyInt 1));
     ((PyInt 0, PyInt 0, PyInt 1), (PyInt 1, PyInt 1, PyInt 1))] in
  create_3d_axis_icon never "icon.png" "png" ([] ++ [extra_guides_ extra]) init =
    create_3d_axis_icon never "icon.png" "png" [] init.
Proof.
  intros extra.
  apply (extra_guides_need_a_target never "icon.png" "png" [] extra init).
  reflexivity.
Defined.

(** ** The parallelogram without suppression, and on two axes
    (lines 193-224) *)

(** X8.  With the suppression flag disabled, all four edges of the
    quadrilateral are stroked, in the order origin-v1, v1-(v1+v2),
    (v1+v2)-v2, v2-origin, whatever the vectors are. *)
Theorem all_edges_without_suppression (raises : call -> bool) (p : params)
    (d : parallelogram_dict) (A D : pt) (s : state) :
  parallelogram p = Some d ->
  pg_skip_axis_edges d = Some false ->
  float3 (default zero3 (pg_v1 d)) = inr A ->
  float3 (default zero3 (pg_v2 d)) = inr D ->
  draw_parallelogram raises p s =
    (lib raises (fill_poly d [O; A; pt_add A D; D]);;
     for_each [edge_stroke d O A; edge_stroke d A (pt_add A D);
               edge_stroke d (pt_add A D) D; edge_stroke d D O]
              (lib raises)) s.
Proof.
  intros Hp Hs HA HD. rewrite (draw_parallelogram_eq raises p d A D s) by done.
  unfold strokes_of. by rewrite Hs.
Qed.

(** X8, for the vectors (1,0,0) and (0,0,1). *)
Lemma all_edges_without_suppression_witness :
  let d := ParallelogramDict (Some (ints 1 0 0)) (Some (ints 0 0 1))
             None None None None None None (Some false) in
  let A := (1.0, 0.0, 0.0)%float in
  let D := (0.0, 0.0, 1.0)%float in
  draw_parallelogram never (bind_kwargs [parallelogram_ d]) init =
    (lib never (fill_poly d [O; A; pt_add A D; D]);;
     for_each [edge_stroke d O A; edge_stroke d A (pt_add A D);
               edge_stroke d (pt_add A D) D; edge_stroke d D O]
              (lib never)) init.
Proof.
  intros d A D.
  apply (all_edges_without_suppression never (bind_kwargs [parallelogram_ d])
           d A D init); reflexivity.
Defined.

(** X9.  When v1 and v2 are unit axis points, the two edges at the origin
    lie on axis arrows and are not stroked, and the two edges that meet at
    v1+v2 are stroked: the suppression never removes the far side of a
    face. *)
Theorem unit_face_strokes (raises : call -> bool) (p : params)
    (d : parallelogram_dict) (A D : pt) (s : state) :
  parallelogram p = Some d ->
  default true (pg_skip_axis_edges d) = true ->
  float3 (default zero3 (pg_v1 d)) = inr A ->
  float3 (default zero3 (pg_v2 d)) = inr D ->
  A ∈ unit_axis_points -> D ∈ unit_axis_points ->
  draw_parallelogram raises p s =
    (lib raises (fill_poly d [O; A; pt_add A D; D]);;
     for_each [edge_stroke d A (pt_add A D); edge_stroke d (pt_add A D) D]
              (lib raises)) s.
Proof.
  intros Hp Hs HA HD HAu HDu.
  rewrite (draw_parallelogram_eq raises p d A D s) by done.
  unfold strokes_of. rewrite Hs. unfold unit_axis_points in *.
  repeat match goal with
         | H : _ ∈ _ :: _ |- _ => apply elem_of_cons in H as [-> | H]
         | H : _ ∈ [] |- _ => by apply elem_of_nil in H
         end; reflexivity.
Qed.

(** X9, for the face of the Y and the X axis. *)
Lemma unit_face_strokes_witness :
  let d := plane (ints 0 1 0) (ints 1 0 0) in
  let A := (0.0, 1.0, 0.0)%float in
  let D := (1.0, 0.0, 0.0)%float in
  draw_parallelogram never (bind_kwargs [parallelogram_ d]) init =
    (lib never (fill_poly d [O; A; pt_add A D; D]);;
     for_each [edge_stroke d A (pt_add A D); edge_stroke d (pt_add A D) D]
              (lib never)) init.
Proof.
  intros d A D.
  apply (unit_face_strokes never (bind_kwargs [parallelogram_ d]) d A D init);
    try reflexivity.
  - apply list_elem_of_In. right. left. reflexivity.
  - apply list_elem_of_In. left. reflexivity.
Defined.

(** ** Which files a failing run leaves behind (lines 243-246, 379-429) *)

(** The state in which a step ends, and whether it returned. *)
Definition final {A} (o : outcome A) : state :=
  match o with
  | Returned _ s => s
  | Raised _ s => s
  end.

Definition returned {A} (o : outcome A) : bool :=
  match o with
  | Returned _ _ => true
  | Raised _ _ => false
  end.

(** [m] writes the paths [l], in this order, and stops writing when it
    raises. *)
Definition writes {A} (m : M A) (l : list string) : Prop :=
  forall s, exists l',
    l' `prefix_of` l /\
    written (final (m s)) = written s ++ l' /\
    (returned (m s) = true -> l' = l).

Lemma writes_nothing {A} (m : M A) :
  (forall s, written (final (m s)) = written s) -> writes m [].
Proof.
  intros H s. exists []. rewrite app_nil_r. by repeat split.
Qed.

Lemma writes_bind {A B} (m : M A) (k : A -> M B) l1 l2 :
  writes m l1 -> (forall a, writes (k a) l2) -> writes (m ≫= k) (l1 ++ l2).
Proof.
  intros Hm Hk s. destruct (Hm s) as (l1' & Hp1 & Hw1 & Hr1).
  unfold mbind, M_bind. destruct (m s) as [a s1 | e s1]; simpl in *.
  - rewrite (Hr1 eq_refl) in Hw1.
    destruct (Hk a s1) as (l2' & Hp2 & Hw2 & Hr2).
    exists (l1 ++ l2'). split; [by apply prefix_app |].
    split; [by rewrite Hw2, Hw1, app_assoc |].
    intros Hr. by rewrite (Hr2 Hr).
  - exists l1'. split; [by apply prefix_app_r |]. by split.
Qed.

Lemma writes_eq {A} (m : M A) l l' : writes m l -> l = l' -> writes m l'.
Proof. by intros H <-. Qed.

Lemma writes_try_pass (m : M unit) : writes m [] -> writes (try_pass m) [].
Proof.
  intros Hm. apply writes_nothing. intros s.
  destruct (Hm s) as (l' & Hp & Hw & _).
  apply prefix_nil_inv in Hp. subst l'. rewrite app_nil_r in Hw.
  unfold try_pass, try_except. by destruct (m s).
Qed.

Lemma writes_for_each {A} (xs : list A) (body : A -> M unit) :
  (forall x, writes (body x) []) -> writes (for_each xs body) [].
Proof.
  intros Hb. induction xs as [| x xs IH]; simpl.
  - by apply writes_nothing.
  - change (@nil string) with (@nil string ++ []). apply writes_bind; auto.
Qed.

Section Writes.

Variable raises : call -> bool.

Lemma writes_lib c : writes (lib raises c) [].
Proof. apply writes_nothing. intros s. unfold lib. by destruct (raises c). Qed.

Lemma writes_plt_subplots n m : writes (plt_subplots raises n m) [].
Proof.
  apply writes_nothing. intros s. unfold plt_subplots. by destruct (raises _).
Qed.

Lemma writes_imread path : writes (imread raises path) [].
Proof.
  apply writes_nothing. intros s. unfold imread.
  destruct (files s !! path); [| done]. by destruct (raises _).
Qed.

Lemma writes_print line : writes (print raises line) [].
Proof.
  apply writes_nothing. intros s. unfold print. by destruct (raises _).
Qed.

Lemma writes_plt_close : writes (plt_close raises) [].
Proof.
  apply writes_nothing. intros s. unfold plt_close. by destruct (raises _).
Qed.

Lemma writes_savefig path format : writes (savefig raises path format) [path].
Proof.
  intros s. unfold savefig. destruct (raises _); simpl.
  - exists []. rewrite app_nil_r. repeat split; [apply prefix_nil | done].
  - by exists [path].
Qed.

(** A rendering that raises has written nothing, or has written its file
    and failed to close the figure or to print the message. *)
Lemma create_raised path format kwargs s e s' :
  create_3d_axis_icon raises path format kwargs s = Raised e s' ->
  (written s' = written s /\ files s' = files s) \/
  (written s' = written s ++ [out_path path format] /\
   files s' =
     <[out_path path format :=
         File (out_format format) (icon_canvas raises (bind_kwargs kwargs))]>
       (files s)).
Proof.
  rewrite create_eq. cbv zeta.
  destruct (dpi _ =? 0); [intros [= _ <-]; by left |].
  destruct (raises (Figure _ _)); [intros [= _ <-]; by left |].
  destruct (trace _).2; [intros [= _ <-]; by left |].
  destruct (raises (Savefig _ _)); [intros [= _ <-]; by left |].
  destruct (raises PltClose); [intros [= _ <-]; by right |].
  destruct (raises (PrintLine _)); [intros [= _ <-]; by right | done].
Qed.

Lemma writes_create path format kwargs :
  writes (create_3d_axis_icon raises path format kwargs) [out_path path format].
Proof.
  intros s.
  destruct (create_3d_axis_icon raises path format kwargs s) as [[] s' | e s']
    eqn:E; simpl.
  - apply create_returned_inv in E. subst s'. by exists [out_path path format].
  - apply create_raised in E as [[-> _] | [-> _]].
    + exists []. rewrite app_nil_r. repeat split; [apply prefix_nil | done].
    + by exists [out_path path format].
Qed.

Ltac writes_tac :=
  repeat first
    [ apply writes_create | apply writes_print | apply writes_plt_close
    | apply writes_lib | apply writes_imread | apply writes_plt_subplots
    | apply writes_savefig
    | apply writes_try_pass | apply writes_for_each; intros
    | eapply writes_bind; [| intros ?] ].

Lemma writes_fill_cell i ax : writes (fill_cell raises i ax) [].
Proof.
  unfold fill_cell. eapply writes_eq.
  - eapply writes_bind; [apply writes_lib | intros _].
    eapply writes_bind; [apply writes_lib | intros _].
    instantiate (1 := []).
    destruct (_ <? _)%nat; [| by apply writes_nothing].
    apply writes_try_pass. eapply writes_eq;
      [eapply writes_bind; [apply writes_imread | intros img; apply writes_lib] |].
    reflexivity.
  - reflexivity.
Qed.

Lemma writes_create_reference_grid :
  writes (create_reference_grid raises)
         ["axis_reference_grid.png"; "axis_reference_grid.svg"].
Proof.
  unfold create_reference_grid. eapply writes_eq.
  - eapply writes_bind; [apply writes_plt_subplots | intros axes].
    eapply writes_bind; [apply writes_lib | intros _].
    eapply writes_bind.
    { apply writes_for_each. intros [i ax]. apply writes_fill_cell. }
    intros _. writes_tac.
  - reflexivity.
Qed.

Lemma writes_main : writes (main raises) outputs.
Proof.
  unfold main, create_multiple_styles, create_focus_variants,
    create_all_dim_with_guides, create_parallelogram_variants,
    create_parallelogram_variants_composite, create_space_diagonal_variant,
    _save_both.
  cbv zeta. eapply writes_eq.
  - repeat first
      [ apply writes_create | apply writes_print
      | apply writes_create_reference_grid
      | eapply writes_bind; [| intros ?] ].
  - reflexivity.
Qed.

End Writes.

(** X10.  Whatever the library does, the files that a run has written
    when it ends are an initial segment of the 33 output paths in their
    order, and all of them when the run returns: a failure stops the run,
    and no later variant is rendered. *)
Theorem run_stops_at_first_failure (raises : call -> bool) (s : state) :
  exists written_now,
    written_now `prefix_of` outputs /\
    written (final (main raises s)) = written s ++ written_now /\
    (returned (main raises s) = true -> written_now = outputs).
Proof.
  destruct (writes_main raises s) as (l & Hprefix & Hwritten & Hall).
  exists l. by repeat split.
Qed.

(** ** The two files of a variant (lines 243-246) *)

Lemma contains_png_suffix base : contains ".png" (base +:+ ".png") = true.
Proof.
  induction base as [| c base IH]; [reflexivity |].
  change (String c base +:+ ".png") with (String c (base +:+ ".png")).
  cbn [contains]. rewrite IH. apply orb_true_r.
Qed.

(** The vector file of a variant is not its raster file. *)
Lemma svg_is_not_png path base :
  out_path path "svg" <> base +:+ ".png".
Proof.
  intros H.
  pose proof (replace_from_no_png path 0) as Hno.
  change (replace_from 0 ".png" ".svg" path) with (out_path path "svg") in Hno.
  rewrite H, contains_png_suffix in Hno. discriminate Hno.
Qed.

(** X11.  The batch helper renders the raster file first.  When that
    rendering raises, the helper raises with it in the same state and the
    vector rendering is not attempted: no file but the raster one can have
    changed, and the vector file is another file.  When the vector
    rendering raises, the helper raises with it, and the raster file of the
    variant stays as it was rendered; no file but these two has changed. *)
Theorem save_both_stops_at_first_failure (raises : call -> bool)
    (base : string) (kwargs : list kwarg) (s : state) :
  let png := base +:+ ".png" in
  let svg := out_path (base +:+ ".svg") "svg" in
  svg <> png /\
  (forall e s1,
     create_3d_axis_icon raises png "png" kwargs s = Raised e s1 ->
     _save_both raises base kwargs s = Raised e s1 /\
     forall path, path <> png -> files s1 !! path = files s !! path) /\
  (forall s1 e s2,
     create_3d_axis_icon raises png "png" kwargs s = Returned tt s1 ->
     create_3d_axis_icon raises (base +:+ ".svg") "svg" kwargs s1 = Raised e s2 ->
     _save_both raises base kwargs s = Raised e s2 /\
     files s2 !! png =
       Some (File "png" (icon_canvas raises (bind_kwargs kwargs))) /\
     forall path, path <> png -> path <> svg ->
       files s2 !! path = files s !! path).
Proof.
  intros png svg.
  assert (svg <> png) as Hne by apply svg_is_not_png.
  split; [exact Hne |]. split.
  - intros e s1 H. unfold _save_both, mbind, M_bind. fold png. rewrite H.
    split; [done |]. intros path Hp.
    apply create_raised in H as [[_ ->] | [_ ->]]; [done |].
    by rewrite lookup_insert_ne.
  - intros s1 e s2 H1 H2. unfold _save_both, mbind, M_bind. fold png.
    rewrite H1. split; [done |].
    apply create_returned_inv in H1. subst s1.
    change (out_path png "png") with png in H2.
    apply create_raised in H2 as [[_ ->] | [_ ->]].
    + cbn [files saved]. split; [apply lookup_insert_eq |].
      intros path Hp _. by rewrite lookup_insert_ne.
    + fold svg. cbn [files saved]. split.
      * rewrite lookup_insert_ne by done. apply lookup_insert_eq.
      * intros path Hp Hs. by rewrite !lookup_insert_ne.
Qed.

(** A library in which writing a vector file fails. *)
Definition no_svg (c : call) : bool :=
  match c with
  | Savefig _ format => String.eqb format "svg"
  | _ => false
  end.

(** X11, for the variant [axis_focus_x] and a library that cannot write
    vector files. *)
Lemma save_both_stops_at_first_failure_witness :
  exists e s2,
    _save_both no_svg "axis_focus_x" [normal_axis_ "x"] init = Raised e s2 /\
    files s2 !! ("axis_focus_x" +:+ ".png") =
      Some (File "png" (icon_canvas no_svg (bind_kwargs [normal_axis_ "x"]))).
Proof.
  eexists _, _.
  destruct (proj2 (proj2 (save_both_stops_at_first_failure no_svg "axis_focus_x"
                            [normal_axis_ "x"] init)) _ _ _ eq_refl eq_refl)
    as (Hrun & Hpng & _).
  split; [exact Hrun | exact Hpng].
Defined.

(** X12.  Whatever the library does, the files that grid composition has
    written when it ends are an initial segment of its two composites, the
    raster one first, and both of them when it returns. *)
Theorem grid_stops_at_first_failure (raises : call -> bool) (s : state) :
  exists written_now,
    written_now `prefix_of`
      ["axis_reference_grid.png"; "axis_reference_grid.svg"] /\
    written (final (create_reference_grid raises s)) = written s ++ written_now /\
    (returned (create_reference_grid raises s) = true ->
     written_now = ["axis_reference_grid.png"; "axis_reference_grid.svg"]).
Proof.
  destruct (writes_create_reference_grid raises s)
    as (l & Hprefix & Hwritten & Hall).
  exists l. by repeat split.
Qed.

(** ** Cells of the grid (lines 391-399) *)

(** X13.  When only calls inside [try] blocks raise, the grid is composed
    and each of its first 13 cells is decided by its own source file alone:
    it shows the image when the file is there and is read and shown without
    an exception, and it is blank when reading or showing raises, as for a
    missing file. *)
Theorem grid_cell_by_cell (raises : call -> bool) (s : state) :
  (forall c, raises c = true -> handled c = true) ->
  exists shown,
    create_reference_grid raises s = Returned tt (grid_saved (grid_of shown) s) /\
    forall i name f, names !! i = Some name ->
      files s !! (name +:+ ".png") = Some f ->
      let ax := (i / 4, i mod 4)%nat in
      (raises (Imread (name +:+ ".png")) = true -> shown i = []) /\
      (raises (Imshow ax (f_canvas f)) = true -> shown i = []) /\
      (raises (Imread (name +:+ ".png")) = false ->
       raises (Imshow ax (f_canvas f)) = false ->
       shown i = [Imshow ax (f_canvas f)]).
Proof.
  intros Hok.
  exists (fun i => cell_image raises (files s) i (i / 4, i mod 4)%nat). split.
  - rewrite (create_reference_grid_eq raises Hok). by rewrite grid_canvas_eq.
  - intros i name f Hn Hf. cbv zeta. unfold cell_image. rewrite Hn, Hf.
    repeat split.
    + by intros ->.
    + intros ->. by destruct (raises (Imread _)).
    + by intros -> ->.
Qed.

(** X13, for a library that never raises and the 13 source files. *)
Lemma grid_cell_by_cell_witness :
  exists shown,
    create_reference_grid never thirteen_files =
      Returned tt (grid_saved (grid_of shown) thirteen_files) /\
    forall i name f, names !! i = Some name ->
      files thirteen_files !! (name +:+ ".png") = Some f ->
      let ax := (i / 4, i mod 4)%nat in
      (never (Imread (name +:+ ".png")) = true -> shown i = []) /\
      (never (Imshow ax (f_canvas f)) = true -> shown i = []) /\
      (never (Imread (name +:+ ".png")) = false ->
       never (Imshow ax (f_canvas f)) = false ->
       shown i = [Imshow ax (f_canvas f)]).
Proof. apply (grid_cell_by_cell never thirteen_files), never_handled. Defined.

(** ** The composite of a run (lines 406-429) *)

Lemma grid_canvas_shows raises (fs : gmap string file) i name f :
  names !! i = Some name ->
  fs !! (name +:+ ".png") = Some f ->
  raises (Imread (name +:+ ".png")) = false ->
  raises (Imshow (i / 4, i mod 4)%nat (f_canvas f)) = false ->
  Imshow (i / 4, i mod 4)%nat (f_canvas f) ∈ grid_canvas raises fs.
Proof.
  intros Hn Hf Hread Hshow. rewrite grid_canvas_eq. unfold grid_of.
  apply elem_of_app. right. apply elem_of_app. left.
  apply list_elem_of_In, in_flat_map. exists i. split.
  - apply in_seq. apply lookup_lt_Some in Hn. rewrite names_length in Hn. lia.
  - unfold cell_image. rewrite Hn, Hf, Hread, Hshow. right. right. by left.
Qed.

Section Composite.

Variable raises : call -> bool.
Hypothesis Hnever : forall c, raises c = false.

Lemma never_raises_handled c : raises c = true -> handled c = true.
Proof. by rewrite Hnever. Qed.

Lemma create_step_at {B} path format kwargs out f (k : unit -> M B) s :
  geometry_ok (bind_kwargs kwargs) = true ->
  out_path path format = out ->
  out_format format = f ->
  (create_3d_axis_icon raises path format kwargs ≫= k) s =
    k tt (saved out f (icon_canvas raises (bind_kwargs kwargs)) s).
Proof.
  intros Hg <- <-. unfold mbind, M_bind.
  rewrite (create_returns raises); [done | | done].
  intros c. by rewrite Hnever.
Qed.

Lemma files_saved out format cv s :
  files (saved out format cv s) = <[out := File format cv]> (files s).
Proof. reflexivity. Qed.

(** The state of a run just before the grid is composed. *)
Lemma main_before_grid s :
  exists S,
    main raises s = create_reference_grid raises S /\
    forall i name, names !! i = Some name ->
      exists cv, files S !! (name +:+ ".png") = Some (File "png" cv).
Proof.
  unfold main, create_multiple_styles, create_focus_variants,
    create_all_dim_with_guides, create_parallelogram_variants,
    create_parallelogram_variants_composite, create_space_diagonal_variant,
    _save_both.
  cbv zeta.
  repeat first
    [ rewrite bind_assoc
    | erewrite create_step_at; [cbv beta | lazy; reflexivity ..]
    | rewrite (print_step raises never_raises_handled); cbv beta ].
  eexists. split; [reflexivity |].
  intros i name Hn. rewrite !files_saved. cbn [files]. rewrite ?files_saved.
  do 13 (destruct i as [| i];
         [injection Hn as <-; simpl (_ +:+ _);
          rewrite !lookup_insert_ne by done; rewrite lookup_insert_eq; eauto |]).
  discriminate Hn.
Qed.

End Composite.

Lemma names_are_not_the_grid i name :
  names !! i = Some name ->
  name +:+ ".png" <> "axis_reference_grid.png" /\
  name +:+ ".png" <> "axis_reference_grid.svg".
Proof.
  intros Hn.
  do 13 (destruct i as [| i]; [injection Hn as <-; by split |]).
  discriminate Hn.
Qed.

(** X14.  In a run in which no call raises, the composite shows the run's
    own renderings: each of the 13 names has a raster file at the end, and
    its content is the image shown in the cell of that name, row [i / 4],
    column [i mod 4]; the raster and the vector composite hold the same
    canvas. *)
Theorem composite_shows_the_run (raises : call -> bool) (s : state) :
  (forall c, raises c = false) ->
  exists s' cv,
    main raises s = Returned tt s' /\
    files s' !! "axis_reference_grid.png" = Some (File "png" cv) /\
    files s' !! "axis_reference_grid.svg" = Some (File "svg" cv) /\
    forall i name, names !! i = Some name ->
      exists img,
        files s' !! (name +:+ ".png") = Some (File "png" img) /\
        Imshow (i / 4, i mod 4)%nat img ∈ cv.
Proof.
  intros Hnever.
  destruct (main_before_grid raises Hnever s) as (S & Hmain & Hfiles).
  rewrite Hmain.
  rewrite (create_reference_grid_eq raises) by (intros c; by rewrite Hnever).
  eexists _, _. split; [reflexivity |].
  unfold grid_saved. cbn [files].
  split; [by rewrite lookup_insert_ne, lookup_insert_eq |].
  split; [by rewrite lookup_insert_eq |].
  intros i name Hn. destruct (Hfiles i name Hn) as (img & Hf).
  destruct (names_are_not_the_grid i name Hn) as [Hpng Hsvg].
  exists img. split.
  - by rewrite !lookup_insert_ne.
  - by apply (grid_canvas_shows raises (files S) i name (File "png" img)).
Qed.

(** X14, for a library that never raises, from the fresh state. *)
Lemma composite_shows_the_run_witness :
  exists s' cv,
    main never init = Returned tt s' /\
    files s' !! "axis_reference_grid.png" = Some (File "png" cv) /\
    files s' !! "axis_reference_grid.svg" = Some (File "svg" cv) /\
    forall i name, names !! i = Some name ->
      exists img,
        files s' !! (name +:+ ".png") = Some (File "png" img) /\
        Imshow (i / 4, i mod 4)%nat img ∈ cv.
Proof. apply (composite_shows_the_run never init). reflexivity. Defined.

(** ** Tuples of the wrong length (lines 110-113, 199-200) *)

Lemma bind_ext {A B} (m m' : M A) (k k' : A -> M B) s :
  (forall s, m s = m' s) -> (forall a s, k a s = k' a s) ->
  (m ≫= k) s = (m' ≫= k') s.
Proof.
  intros Hm Hk. unfold mbind, M_bind. rewrite Hm. by destruct (m' s).
Qed.

Lemma bind_kwargs_snoc kwargs k :
  bind_kwargs (kwargs ++ [k]) = bind_kwarg (bind_kwargs kwargs) k.
Proof. unfold bind_kwargs. by rewrite foldl_app. Qed.

(** The renderer reads its keyword arguments through the size, the
    resolution and what it draws. *)
Lemma create_ext raises path format kw1 kw2 s :
  size (bind_kwargs kw1) = size (bind_kwargs kw2) ->
  dpi (bind_kwargs kw1) = dpi (bind_kwargs kw2) ->
  (forall s, icon_body raises (bind_kwargs kw1) s =
             icon_body raises (bind_kwargs kw2) s) ->
  create_3d_axis_icon raises path format kw1 s =
    create_3d_axis_icon raises path format kw2 s.
Proof.
  intros Hs Hd Hb. rewrite !create_eq. cbv zeta.
  unfold icon_canvas, trace. by rewrite Hs, Hd, Hb.
Qed.

Lemma short_tuple_fails vs :
  (length vs < 3)%nat -> is_inr (float3 (PyTuple vs)) = false.
Proof.
  destruct vs as [| a [| b [| c vs]]]; intros H.
  - reflexivity.
  - unfold float3, py_index. simpl. by destruct (py_float a).
  - unfold float3, py_index. simpl.
    destruct (py_float a); [done |]. simpl. by destruct (py_float b).
  - simpl in H. lia.
Qed.

(** With a guide target that does not unpack, the renderer does what it
    does with the origin for a target. *)
Lemma create_guide_fallback raises path format kwargs s v e :
  v <> PyNone -> unpack3 v = inl e ->
  create_3d_axis_icon raises path format (kwargs ++ [guide_to_ v]) s =
    create_3d_axis_icon raises path format
      (kwargs ++ [guide_to_ (PyTuple [PyFloat 0.0; PyFloat 0.0;
                                      PyFloat 0.0]%float)]) s.
Proof.
  intros Hv Hu. apply create_ext.
  - rewrite !bind_kwargs_snoc. by destruct (bind_kwargs kwargs).
  - rewrite !bind_kwargs_snoc. by destruct (bind_kwargs kwargs).
  - intros s0. rewrite !bind_kwargs_snoc.
    destruct (bind_kwargs kwargs) as [sz dp na da gt gc lm la sm sa am aa pg eg].
    cbn [bind_kwarg]. unfold icon_body.
    apply bind_ext; [done | intros _ s1].
    apply bind_ext; [done | intros _ s2].
    apply bind_ext; [| done].
    intros s3. unfold draw_guides. cbn [guide_to].
    destruct v; [done | | |];
      (apply bind_ext; [| done]; intros s4; rewrite !guide_target_eq;
       unfold target_of; by rewrite Hu).
Qed.

(** X15.  The renderer treats a tuple of the wrong length differently in
    its two geometry inputs.  With a guide target that does not unpack
    into three coordinates, a tuple of another length among them, it does
    what it does with the target [(0.0, 0.0, 0.0)].  A vector of the
    parallelogram is read by its first three coordinates: with more of them
    the renderer does what it does with the first three, and with fewer it
    raises. *)
Theorem tuples_of_the_wrong_length (raises : call -> bool) (path format : string)
    (kwargs : list kwarg) (s : state) :
  let create := create_3d_axis_icon raises path format in
  let origin := PyTuple [PyFloat 0.0; PyFloat 0.0; PyFloat 0.0]%float in
  (forall v e, v <> PyNone -> unpack3 v = inl e ->
     create (kwargs ++ [guide_to_ v]) s = create (kwargs ++ [guide_to_ origin]) s) /\
  (forall vs, length vs <> 3%nat ->
     create (kwargs ++ [guide_to_ (PyTuple vs)]) s =
       create (kwargs ++ [guide_to_ origin]) s) /\
  (forall a b c rest v2 fc fa ec es lw ea sk,
     create (kwargs ++ [parallelogram_
       (ParallelogramDict (Some (PyTuple (a :: b :: c :: rest))) v2
          fc fa ec es lw ea sk)]) s =
     create (kwargs ++ [parallelogram_
       (ParallelogramDict (Some (PyTuple [a; b; c])) v2
          fc fa ec es lw ea sk)]) s) /\
  (forall a b c rest v1 fc fa ec es lw ea sk,
     create (kwargs ++ [parallelogram_
       (ParallelogramDict v1 (Some (PyTuple (a :: b :: c :: rest)))
          fc fa ec es lw ea sk)]) s =
     create (kwargs ++ [parallelogram_
       (ParallelogramDict v1 (Some (PyTuple [a; b; c]))
          fc fa ec es lw ea sk)]) s) /\
  (forall d vs, (length vs < 3)%nat ->
     pg_v1 d = Some (PyTuple vs) \/ pg_v2 d = Some (PyTuple vs) ->
     exists e s', create (kwargs ++ [parallelogram_ d]) s = Raised e s').
Proof.
  intros create origin. unfold create, origin.
  split; [| split; [| split; [| split]]].
  - intros v e. apply create_guide_fallback.
  - intros vs Hlen. apply (create_guide_fallback _ _ _ _ _ _ ValueError); [done |].
    destruct vs as [| a [| b [| c [| d vs]]]]; try reflexivity. by destruct Hlen.
  - intros. apply create_ext.
    + rewrite !bind_kwargs_snoc. by destruct (bind_kwargs kwargs).
    + rewrite !bind_kwargs_snoc. by destruct (bind_kwargs kwargs).
    + intros s0. rewrite !bind_kwargs_snoc. by destruct (bind_kwargs kwargs).
  - intros. apply create_ext.
    + rewrite !bind_kwargs_snoc. by destruct (bind_kwargs kwargs).
    + rewrite !bind_kwargs_snoc. by destruct (bind_kwargs kwargs).
    + intros s0. rewrite !bind_kwargs_snoc. by destruct (bind_kwargs kwargs).
  - intros d vs Hlen Hv.
    assert (parallelogram (bind_kwargs (kwargs ++ [parallelogram_ d])) = Some d)
      as Hp.
    { rewrite bind_kwargs_snoc. by destruct (bind_kwargs kwargs). }
    destruct (create_raises_body raises path format
                (kwargs ++ [parallelogram_ d]) s) as (e & s' & H & _);
      [| by exists e, s'].
    apply (failing_icon_body_parallelogram raises _ d Hp).
    destruct Hv as [-> | ->]; cbn [from_option id];
      rewrite (short_tuple_fails vs Hlen); [done | apply andb_false_r].
Qed.
